(** * Student Financial Tracker: the Overview and Spending-Analysis pages

    A shallow embedding of the data pipeline of
    [pages/2_Overview.py] and [pages/3_Spending Analysis.py]:
    balance extraction from the statement text, the delimiter fallback of
    the CSV loader, date conversion and the date-range filter, the inflow
    and outflow selections, the per-payee, per-day, per-month and
    per-weekday aggregations, and the savings-goal progress.

    Conventions.
    - Python strings are [string]s; every character is a code point
      below 256.
    - The [Amount] column holds exact amounts in cents ([Z]).
    - A pandas [Timestamp] is a number of nanoseconds since
      1970-01-01T00:00 ([Z]); [NaT], [NaN] and [None] are [None].
    - A Python [float] is a binary64 number ([PrimFloat.float]).
    - A raised Python exception is the [Raise] outcome of [Result].
    - [pd.read_csv] and [pd.to_datetime] on a column are library code:
      they are section variables. *)

From Stdlib Require Import ZArith QArith List String Ascii Bool Lia.
From Stdlib Require Import Permutation Sorted.
From Stdlib Require Floats.
Import ListNotations.

Local Open Scope Z_scope.

(* ================================================================== *)
(** * Python values, exceptions and string methods *)

Module Py.
Import Floats.

Inductive Exc :=
| IndexError
| ZeroDivisionError
| ValueError
| UnicodeDecodeError.

Inductive Result (A : Type) :=
| Ok (a : A)
| Raise (e : Exc).
Arguments Ok {A} a.
Arguments Raise {A} e.

Definition bind {A B} (x : Result A) (k : A -> Result B) : Result B :=
  match x with
  | Ok a => k a
  | Raise e => Raise e
  end.

(** [sub in s] *)
Fixpoint contains (sub s : string) : bool :=
  String.prefix sub s ||
  match s with
  | EmptyString => false
  | String _ s' => contains sub s'
  end.

(** [s.find(sub)], counting from position [i] of the original string:
    the lowest index at which [sub] starts, or [-1]. *)
Fixpoint find_from (sub s : string) (i : Z) : Z :=
  if String.prefix sub s then i
  else match s with
       | EmptyString => -1
       | String _ s' => find_from sub s' (i + 1)
       end.

Definition find (sub s : string) : Z := find_from sub s 0.

Definition len (s : string) : Z := Z.of_nat (String.length s).

(** [s[:stop]]: a negative [stop] counts from the end of the string, and
    the bound is clipped to [0 .. len s]. *)
Definition slice_to (s : string) (stop : Z) : string :=
  let stop' := if stop <? 0 then Z.max (len s + stop) 0
               else Z.min stop (len s) in
  String.substring 0 (Z.to_nat stop') s.

(** [s.split(sep)] for a one-character separator: never empty. *)
Fixpoint split (sep : ascii) (s : string) : list string :=
  match s with
  | EmptyString => [EmptyString]
  | String c s' =>
      if Ascii.eqb c sep then EmptyString :: split sep s'
      else match split sep s' with
           | hd :: tl => String c hd :: tl
           | [] => [String c EmptyString]
           end
  end.

(** [l[i]] *)
Definition getitem {A} (l : list A) (i : nat) : Result A :=
  match nth_error l i with
  | Some a => Ok a
  | None => Raise IndexError
  end.

(** [c.isspace()] on the code points below 256. *)
Definition isspace (c : ascii) : bool :=
  let n := Z.of_nat (nat_of_ascii c) in
  ((9 <=? n) && (n <=? 13)) || ((28 <=? n) && (n <=? 32))
  || (n =? 133) || (n =? 160).

Fixpoint lstrip (s : string) : string :=
  match s with
  | EmptyString => EmptyString
  | String c s' => if isspace c then lstrip s' else s
  end.

Fixpoint rstrip (s : string) : string :=
  match s with
  | EmptyString => EmptyString
  | String c s' =>
      match rstrip s' with
      | EmptyString => if isspace c then EmptyString else String c EmptyString
      | r => String c r
      end
  end.

(** [s.strip()] *)
Definition strip (s : string) : string := rstrip (lstrip s).

(** [s.replace(c, '')] for a one-character [c]. *)
Fixpoint remove (c : ascii) (s : string) : string :=
  match s with
  | EmptyString => EmptyString
  | String c' s' =>
      if Ascii.eqb c' c then remove c s' else String c' (remove c s')
  end.

(** A Python [float] is an IEEE 754 binary64 number, NaN and the
    infinities included: the kernel's [PrimFloat.float], whose
    operations are the IEEE ones.  A comparison with NaN is false. *)

(** [max(a, b)] and [min(a, b)]: the first argument is kept unless the
    second is strictly greater (respectively smaller). *)
Definition max (a b : float) : float := if (a <? b)%float then b else a.
Definition min (a b : float) : float := if (b <? a)%float then b else a.

(** [a / b] on floats *)
Definition truediv (a b : float) : Result float :=
  if (b =? 0)%float then Raise ZeroDivisionError else Ok (a / b)%float.

End Py.

Notation "x <- c1 ;; c2" := (Py.bind c1 (fun x => c2))
  (at level 61, c1 at next level, right associativity).

(* ================================================================== *)
(** * Balance extraction (Overview, lines 60-68) *)

Module Balance.
Import Py.

Definition not_available : string := "N/A"%string.

(** One pass of the body of [for line in lines] on a line that contains
    ["Avail Bal"]. *)
Definition balance_of_line (line : string) : Result string :=
  let end_index := find " as of" line in
  let balance_part := slice_to line end_index in
  seg <- getitem (split ":" balance_part) 1 ;;
  Ok (strip seg).

(** The loop: the first line containing ["Avail Bal"] decides (the loop
    breaks there); without such a line [balance_value] keeps its initial
    value. *)
Fixpoint scan_lines (lines : list string) (balance_value : string)
  : Result string :=
  match lines with
  | [] => Ok balance_value
  | line :: rest =>
      if contains "Avail Bal" line then balance_of_line line
      else scan_lines rest balance_value
  end.

Definition extract_balance (lines : list string) : Result string :=
  scan_lines lines not_available.

End Balance.

(* ================================================================== *)
(** * Savings-goal progress (Overview, lines 196-227) *)

Module Savings.
Import Floats.
Import Py.
Local Open Scope float_scope.

Inductive ProgressState :=
| NoBalance                    (* "No balance information available." *)
| NoGoal                       (* "Please set a savings goal ..." *)
| Progress (progress : float). (* the percentage computed *)

(** Lines 202-206: the test on the goal and the computation of
    [progress], with [available_balance] the float that line 198 made of
    the balance text and [savings_goal] the float of the number input.
    The literals [0] and [100] are compared and returned as numbers. *)
Definition savings_progress (available_balance savings_goal : float)
  : Result ProgressState :=
  if 0 <? savings_goal then
    ratio <- truediv available_balance savings_goal ;;
    let progress := ratio * 100 in
    let progress := min (max progress 0) 100 in
    Ok (Progress progress)
  else Ok NoGoal.

End Savings.

(* ================================================================== *)
(** * Timestamps and calendar names *)

Module Calendar.

(** Nanoseconds since 1970-01-01T00:00. *)
Definition Timestamp := Z.

(** A [datetime.date], as the number of days since 1970-01-01. *)
Definition date := Z.

Definition ns_per_day : Z := 86400000000000.

(** [pd.to_datetime(d)] for a [datetime.date]: midnight of that day. *)
Definition to_datetime_date (d : date) : Timestamp := d * ns_per_day.

(** The calendar day a timestamp falls on. *)
Definition day_number (ts : Timestamp) : date := ts / ns_per_day.

(** Day number of the proleptic Gregorian date [y-m-d]. *)
Definition days_from_civil (y m d : Z) : date :=
  let y' := if m <=? 2 then y - 1 else y in
  let era := y' / 400 in
  let yoe := y' - era * 400 in
  let doy := (153 * (if 2 <? m then m - 3 else m + 9) + 2) / 5 + d - 1 in
  let doe := yoe * 365 + yoe / 4 - yoe / 100 + doy in
  era * 146097 + doe - 719468.

(** Month number (1..12) of a day number. *)
Definition month_of_day (n : date) : Z :=
  let z := n + 719468 in
  let doe := z mod 146097 in
  let yoe := (doe - doe / 1460 + doe / 36524 - doe / 146096) / 365 in
  let doy := doe - (365 * yoe + yoe / 4 - yoe / 100) in
  let mp := (5 * doy + 2) / 153 in
  if mp <? 10 then mp + 3 else mp - 9.

(** Weekday number, Monday = 0 (1970-01-01 was a Thursday). *)
Definition weekday_of_day (n : date) : Z := (n + 3) mod 7.

Definition month_order : list string :=
  [ "January"; "February"; "March"; "April"; "May"; "June";
    "July"; "August"; "September";
    "October"; "November"; "December" ]%string.

Definition days_order : list string :=
  [ "Monday"; "Tuesday"; "Wednesday";
    "Thursday"; "Friday"; "Saturday"; "Sunday" ]%string.

(** [.dt.month_name()] and [.dt.day_name()] on one timestamp. *)
Definition month_name (ts : Timestamp) : string :=
  nth (Z.to_nat (month_of_day (day_number ts) - 1)) month_order EmptyString.

Definition day_name (ts : Timestamp) : string :=
  nth (Z.to_nat (weekday_of_day (day_number ts))) days_order EmptyString.

(** Midnight of [y-m-d], for writing tables down. *)
Definition midnight (y m d : Z) : Timestamp :=
  to_datetime_date (days_from_civil y m d).

End Calendar.

(* ================================================================== *)
(** * The transaction table *)

Module Table.
Import Calendar.

(** A row as [pd.read_csv] leaves it: the [Date] cell is still text
    ([None]: the cell is empty). *)
Record RawRow := mkRaw {
  raw_Date : option string;
  raw_TranType : string;
  raw_Payee : option string;
  raw_Amount : Z
}.

(** A row after [df["Date"] = pd.to_datetime(...)]. *)
Record Row := mkRow {
  Date : option Timestamp;
  TranType : string;
  Payee : option string;
  Amount : Z
}.

Definition with_date (r : RawRow) (d : option Timestamp) : Row :=
  mkRow d (raw_TranType r) (raw_Payee r) (raw_Amount r).

End Table.

(* ================================================================== *)
(** * The pandas operations the pages use *)

Module Pandas.

Definition sum (xs : list Z) : Z := fold_right Z.add 0 xs.

(** [df[mask]] *)
Definition boolean_index {A} (mask : A -> bool) (df : list A) : list A :=
  filter mask df.

(** [series.isin(values)] on one cell *)
Definition isin (v : string) (values : list string) : bool :=
  existsb (String.eqb v) values.

(** Comparisons of a datetime cell with a timestamp: [NaT] compares false. *)
Definition ge_cell (cell : option Z) (t : Z) : bool :=
  match cell with
  | Some x => t <=? x
  | None => false
  end.

Definition le_cell (cell : option Z) (t : Z) : bool :=
  match cell with
  | Some x => x <=? t
  | None => false
  end.

(** [series.min()] and [series.max()] of a datetime column: [NaT] cells
    are skipped, an all-[NaT] column gives [NaT]. *)
Fixpoint column_min (col : list (option Z)) : option Z :=
  match col with
  | [] => None
  | None :: tl => column_min tl
  | Some x :: tl =>
      match column_min tl with
      | Some y => Some (Z.min x y)
      | None => Some x
      end
  end.

Fixpoint column_max (col : list (option Z)) : option Z :=
  match col with
  | [] => None
  | None :: tl => column_max tl
  | Some x :: tl =>
      match column_max tl with
      | Some y => Some (Z.max x y)
      | None => Some x
      end
  end.

Section Keyed.
Context {K : Type}.
Variable eqb : K -> K -> bool.
Variable leb : K -> K -> bool.

(** [drop_duplicates()]: the first occurrence of each value is kept. *)
Fixpoint drop_duplicates_from (seen : list K) (l : list K) : list K :=
  match l with
  | [] => []
  | x :: tl =>
      if existsb (eqb x) seen then drop_duplicates_from seen tl
      else x :: drop_duplicates_from (x :: seen) tl
  end.

Definition drop_duplicates (l : list K) : list K :=
  drop_duplicates_from [] l.

(** Ascending stable sort. *)
Fixpoint insert_sorted (x : K) (l : list K) : list K :=
  match l with
  | [] => [x]
  | y :: tl => if leb x y then x :: l else y :: insert_sorted x tl
  end.

Fixpoint sort (l : list K) : list K :=
  match l with
  | [] => []
  | x :: tl => insert_sorted x (sort tl)
  end.

(** The group keys of a frame: rows whose key is null belong to no
    group (groupby drops them), the keys come out sorted. *)
Definition group_keys {A} (key : A -> option K) (df : list A) : list K :=
  sort (drop_duplicates
          (flat_map (fun r => match key r with
                              | Some k => [k]
                              | None => []
                              end) df)).

Definition has_key {A} (key : A -> option K) (k : K) (r : A) : bool :=
  match key r with
  | Some k' => eqb k k'
  | None => false
  end.

(** [df.groupby(key)[val].sum().reset_index()] *)
Definition groupby_sum {A} (key : A -> option K) (val : A -> Z)
           (df : list A) : list (K * Z) :=
  map (fun k => (k, sum (map val (boolean_index (has_key key k) df))))
      (group_keys key df).

(** [left.merge(right, on=key, how='left')] where [right] has the key
    and one value column: every left row, in order, once per matching
    right row, or once with a null value when nothing matches. *)
Definition merge_left {A} (key : A -> option K) (left : list A)
           (right : list (K * Z)) : list (A * option Z) :=
  flat_map
    (fun a =>
       match boolean_index (fun kv => has_key key (fst kv) a) right with
       | [] => [(a, None)]
       | hits => map (fun kv => (a, Some (snd kv))) hits
       end) left.

End Keyed.

(** [series.fillna(v)] on one cell *)
Definition fillna (v : Z) (cell : option Z) : option Z :=
  match cell with
  | Some x => Some x
  | None => Some v
  end.

(** The non-null cells of a window. *)
Definition observations (cells : list (option Z)) : list Z :=
  flat_map (fun c => match c with Some x => [x] | None => [] end) cells.

(** The cells of the trailing window of size [window] that ends at
    position [i]. *)
Definition window_at (window : nat) (col : list (option Z)) (i : nat)
  : list (option Z) :=
  let start := (i + 1 - window)%nat in
  firstn (i + 1 - start) (skipn start col).

(** [series.rolling(window, min_periods).mean()]: a position with fewer
    than [min_periods] observations in its window (or none at all) is
    null. *)
Definition rolling_mean (window min_periods : nat) (col : list (option Z))
  : list (option Q) :=
  map (fun i =>
         let obs := observations (window_at window col i) in
         let n := List.length obs in
         if ((min_periods <=? n) && (1 <=? n))%nat
         then Some (inject_Z (sum obs) / inject_Z (Z.of_nat n))%Q
         else None)
      (seq 0 (List.length col)).

(** The code of a value in [pd.Categorical(..., categories)]:
    its position, or [None] for a value outside the categories. *)
Fixpoint category_code (categories : list string) (v : string) : option nat :=
  match categories with
  | [] => None
  | c :: tl => if String.eqb c v then Some 0%nat
               else option_map S (category_code tl v)
  end.

(** The order [sort_values] uses on an ordered categorical column:
    by code, nulls last. *)
Definition code_leb (a b : option nat) : bool :=
  match a, b with
  | Some i, Some j => (i <=? j)%nat
  | Some _, None => true
  | None, Some _ => false
  | None, None => true
  end.

(** [a] comes strictly before [b] in the order of the categories. *)
Definition precedes (categories : list string) (a b : string) : Prop :=
  exists i j, category_code categories a = Some i
              /\ category_code categories b = Some j
              /\ (i < j)%nat.

Definition by_code (categories : list string) (x y : string * Z) : bool :=
  code_leb (category_code categories (fst x))
           (category_code categories (fst y)).

Definition sort_values_categorical (categories : list string)
           (df : list (string * Z)) : list (string * Z) :=
  sort (by_code categories) df.

(** Every element is below all the later ones. *)
Definition sorted_by {K} (leb : K -> K -> bool) (l : list K) : Prop :=
  StronglySorted (fun x y => leb x y = true) l.

End Pandas.

(* ================================================================== *)
(** * What a page run shows and does, in order *)

Module Trace.

Inductive Event :=
| Read (delimiter : ascii)
    (* uploaded_file.seek(0); pd.read_csv(uploaded_file, delimiter, ...) *)
| ErrorReading
    (* st.error("Error reading the file: ... Trying to determine ...") *)
| WarningDelimiter (delimiter : ascii)
    (* st.warning("Error reading as <delimiter>-delimited CSV: ...") *)
| ErrorAttemptsFailed
    (* st.error("Attempts to read the file failed. ...") *)
| Period (date1 date2 : Z).
    (* st.markdown("For Period of <date1> to <date2>") *)

End Trace.

(* ================================================================== *)
(** * Reading the uploaded file (Overview 53-99, Spending 38-71) *)

Module Loader.
Import Py Table Trace.

Definition comma : ascii := ","%char.
Definition semicolon : ascii := ";"%char.
Definition tab : ascii := "009"%char.

(** [for delimiter in [',', ';', '\t']] *)
Definition delimiters : list ascii := [comma; semicolon; tab].

Section Reader.
(** The uploaded file and the library calls on it.  [read_csv d f] is
    [pd.read_csv(f, delimiter=d, skiprows=6)] after [f.seek(0)]
    ([None]: it raised); the call without a delimiter is the call with
    the default one, the comma.  [read_lines f] is
    [f.read().decode('utf-8').splitlines()]. *)
Variable File : Type.
Variable read_csv : ascii -> File -> option (list RawRow).
Variable read_lines : File -> Result (list string).

(** The [for] loop of the [except] branch: [(df, events)], [df = None]
    when [success] stayed [False]. *)
Fixpoint try_delimiters (f : File) (ds : list ascii)
  : option (list RawRow) * list Event :=
  match ds with
  | [] => (None, [])
  | d :: rest =>
      match read_csv d f with
      | Some df => (Some df, [Read d])
      | None =>
          let (df, events) := try_delimiters f rest in
          (df, Read d :: WarningDelimiter d :: events)
      end
  end.

(** The whole [except] branch. *)
Definition determine_delimiter (f : File)
  : option (list RawRow) * list Event :=
  let (df, events) := try_delimiters f delimiters in
  match df with
  | Some _ => (df, ErrorReading :: events)
  | None => (None, ErrorReading :: events ++ [ErrorAttemptsFailed])
  end.

(** Spending Analysis, lines 38-71. *)
Definition spending_load (f : File) : option (list RawRow) * list Event :=
  match read_csv comma f with
  | Some df => (Some df, [Read comma])
  | None =>
      let (df, events) := determine_delimiter f in
      (df, Read comma :: events)
  end.

(** Overview, lines 47-99: [(balance_value, df, events)].  The [try]
    block also covers the decoding and the balance loop, so an
    exception there reaches the same [except] branch, with
    [balance_value] still ["N/A"]. *)
Definition overview_load (f : File)
  : string * option (list RawRow) * list Event :=
  match lines <- read_lines f ;; Balance.extract_balance lines with
  | Raise _ =>
      let (df, events) := determine_delimiter f in
      (Balance.not_available, df, events)
  | Ok balance_value =>
      match read_csv comma f with
      | Some df => (balance_value, Some df, [Read comma])
      | None =>
          let (df, events) := determine_delimiter f in
          (balance_value, df, Read comma :: events)
      end
  end.

(** The first reading that succeeds among semicolon, tab. *)
Definition first_of_semicolon_tab (f : File) : option (list RawRow) :=
  match read_csv semicolon f with
  | Some df => Some df
  | None => read_csv tab f
  end.
End Reader.

(** The delimiters a run tried, in order. *)
Definition reads (events : list Event) : list ascii :=
  flat_map (fun e => match e with Read d => [d] | _ => [] end) events.

End Loader.

(* ================================================================== *)
(** * Converting the Date column (Overview 103, Spending 76) *)

Module Dates.
Import Py Calendar Table.

(** [df['Date'] = col]: the converted column takes the place of the
    text column, row by row. *)
Fixpoint assign_Date (df : list RawRow) (col : list (option Timestamp))
  : list Row :=
  match df, col with
  | r :: df', d :: col' => with_date r d :: assign_Date df' col'
  | _, _ => []
  end.

Section Column.
(** [pd.to_datetime(col, errors='coerce')], library code, on the whole
    column of cells ([None]: an empty cell).  It is a function of the
    column, not of the cell: pandas reads the cells in one format that
    it infers from the column, so what a text becomes can depend on the
    other cells.  The result has an entry for each cell, [None] ([NaT])
    where the cell is not a date in that reading. *)
Variable to_datetime_coerce : list (option string) -> list (option Timestamp).

(** Spending Analysis, line 76. *)
Definition convert_coerce (df : list RawRow) : list Row :=
  assign_Date df (to_datetime_coerce (map raw_Date df)).

(** The cell of row [i] has a text and fails to parse: the conversion
    of the column has [NaT] there. *)
Definition date_fails (df : list RawRow) (i : nat) : Prop :=
  exists r text,
    nth_error df i = Some r
    /\ raw_Date r = Some text
    /\ nth_error (to_datetime_coerce (map raw_Date df)) i = Some None.
End Column.

End Dates.

(* ================================================================== *)
(** * What both pages compute from the converted table
      (Overview 106-140, Spending 79-105) *)

Module Page.
Import Calendar Table Pandas.

(** Lines 118-119 / 91-92. *)
Definition date_filter (date1 date2 : date) (df : list Row) : list Row :=
  boolean_index
    (fun r => ge_cell (Date r) (to_datetime_date date1)
              && le_cell (Date r) (to_datetime_date date2))
    df.

(** The date of a row lies in the window, both ends included. *)
Definition in_window (date1 date2 : date) (r : Row) : Prop :=
  exists ts, Date r = Some ts
             /\ to_datetime_date date1 <= ts <= to_datetime_date date2.

(** The defaults of the two date inputs. *)
Definition start_date (df : list Row) : option Timestamp :=
  column_min (map Date df).
Definition end_date (df : list Row) : option Timestamp :=
  column_max (map Date df).

Definition cash_outflow_trantypes : list string :=
  ["D/D"; "INT"; "DEBIT"; "EFTPOS"; "BILLPAY"]%string.

Definition cash_inflow_trantypes : list string :=
  ["CREDIT"; "DEPOSIT"; "INT"; "TFR IN"; "D/C"]%string.

Definition df_outflow (df_filtered : list Row) : list Row :=
  boolean_index (fun r => isin (TranType r) cash_outflow_trantypes)
                df_filtered.

Definition total_expenses (df_filtered : list Row) : Z :=
  sum (map Amount (boolean_index (fun r => Amount r <? 0)
                                 (df_outflow df_filtered))).

Definition df_inflow (df_filtered : list Row) : list Row :=
  boolean_index (fun r => isin (TranType r) cash_inflow_trantypes)
                df_filtered.

Definition total_income (df_filtered : list Row) : Z :=
  sum (map Amount (boolean_index (fun r => 0 <? Amount r)
                                 (df_inflow df_filtered))).

(** The three-way classification the two totals induce on a row. *)
Inductive Flow := Inflow | Outflow | Neither.

Definition counts_as_expense (r : Row) : bool :=
  isin (TranType r) cash_outflow_trantypes && (Amount r <? 0).

Definition counts_as_income (r : Row) : bool :=
  isin (TranType r) cash_inflow_trantypes && (0 <? Amount r).

Definition classify (r : Row) : Flow :=
  if counts_as_expense r then Outflow
  else if counts_as_income r then Inflow
  else Neither.

Definition is_outflow (r : Row) : bool :=
  match classify r with Outflow => true | _ => false end.

Definition is_inflow (r : Row) : bool :=
  match classify r with Inflow => true | _ => false end.

End Page.

(* ================================================================== *)
(** * Overview: expense breakdown and the daily cash-flow chart *)

Module Overview.
Import Calendar Table Pandas Page.

(** Line 235. *)
Definition payee_summary (df_filtered : list Row) : list (string * Z) :=
  groupby_sum String.eqb String.leb Payee Amount (df_outflow df_filtered).

(** Line 242: the payees the pie chart shows, with their signed sums. *)
Definition expense_breakdown (df_filtered : list Row) : list (string * Z) :=
  boolean_index (fun row => snd row <? 0) (payee_summary df_filtered).

(** The rows of the filtered table that enter the sum of a payee. *)
Definition enters_payee_sum (payee : string) (r : Row) : bool :=
  isin (TranType r) cash_outflow_trantypes
  && has_key String.eqb Payee payee r.

(** Line 249: the "Amount Absolute" column. *)
Definition amount_absolute (breakdown : list (string * Z)) : list Z :=
  map (fun row => Z.abs (snd row)) breakdown.

Definition cell_eqb (a b : option Timestamp) : bool :=
  match a, b with
  | Some x, Some y => x =? y
  | None, None => true
  | _, _ => false
  end.




(** Lines 282-289. *)
Definition total_expenses_daily (df_filtered : list Row)
  : list (Timestamp * Z) :=
  map (fun row => (fst row, Z.abs (snd row)))
      (groupby_sum Z.eqb Z.leb Date Amount (df_outflow df_filtered)).

Definition total_income_daily (df_filtered : list Row)
  : list (Timestamp * Z) :=
  groupby_sum Z.eqb Z.leb Date Amount (df_inflow df_filtered).

(** The frame of the line chart, column by column. *)
Record CashFlow := mkCashFlow {
  cf_Date : list (option Timestamp);
  cf_TotalExpenses : list (option Q);
  cf_TotalIncome : list (option Q)
}.

(** Lines 279-305. *)
Definition cash_flow_data (df_filtered : list Row) : CashFlow :=
  let dates := drop_duplicates cell_eqb (map Date df_filtered) in
  let merged1 :=
    merge_left Z.eqb (fun d => d) dates (total_expenses_daily df_filtered) in
  let merged2 :=
    merge_left Z.eqb (fun row => fst row) merged1
               (total_income_daily df_filtered) in
  let expenses := map (fun row => fillna 0 (snd (fst row))) merged2 in
  let income := map (fun row => fillna 0 (snd row)) merged2 in
  mkCashFlow (map (fun row => fst (fst row)) merged2)
             (rolling_mean 5 1 expenses)
             (rolling_mean 5 1 income).

End Overview.

(* ================================================================== *)
(** * Spending Analysis: monthly and weekday spending *)

Module Spending.
Import Calendar Table Pandas Page Trace.

(** Lines 108-109: the new columns, per row. *)
Definition Month (r : Row) : option string := option_map month_name (Date r).
Definition Day_of_Week (r : Row) : option string :=
  option_map day_name (Date r).

(** The rows of the filtered table that enter the sum of a bucket. *)
Definition enters_bucket_sum (bucket : Row -> option string) (name : string)
           (r : Row) : bool :=
  isin (TranType r) cash_outflow_trantypes
  && has_key String.eqb bucket name r.

Definition absolute (df : list (string * Z)) : list (string * Z) :=
  map (fun row => (fst row, Z.abs (snd row))) df.

(** Lines 115-128 and 141. *)
Definition monthly_spending (df_filtered : list Row) : list (string * Z) :=
  absolute
    (sort_values_categorical month_order
       (groupby_sum String.eqb String.leb Month Amount
                    (df_outflow df_filtered))).

(** Lines 131-138 and 143. *)
Definition weekly_spending (df_filtered : list Row) : list (string * Z) :=
  absolute
    (sort_values_categorical days_order
       (groupby_sum String.eqb String.leb Day_of_Week Amount
                    (df_outflow df_filtered))).

End Spending.

(* ================================================================== *)
(** * The reading of the specification, for comparison *)

Module Spec.
Import Calendar Table Pandas Page.

(** [clamp(x, lo, hi)]: [lo] below [lo], [hi] above [hi], [x] itself
    otherwise. *)
Definition clamp (x lo hi : PrimFloat.float) : PrimFloat.float :=
  if PrimFloat.ltb x lo then lo
  else if PrimFloat.ltb hi x then hi
  else x.

(** Sum of the amounts of the Outflow-classified rows of a payee. *)
Definition outflow_sum_by_payee (payee : string) (df : list Row) : Z :=
  sum (map Amount
           (filter (fun r => is_outflow r
                             && has_key String.eqb Payee payee r) df)).

(** Sum of the magnitudes of the Outflow-classified rows of a bucket. *)
Definition outflow_magnitude (bucket : Row -> option string) (name : string)
           (df : list Row) : Z :=
  sum (map (fun r => Z.abs (Amount r))
           (filter (fun r => is_outflow r
                             && has_key String.eqb bucket name r) df)).

End Spec.

(* ================================================================== *)
(** * Sample data *)

Module Sample.
Import Calendar Table.

(** A parser for the one form [YYYY-MM-DD], enough to run the pages on
    sample tables. *)
Definition digit (c : ascii) : option Z :=
  let n := Z.of_nat (nat_of_ascii c) in
  if (48 <=? n) && (n <=? 57) then Some (n - 48) else None.

Fixpoint number (acc : Z) (s : string) : option Z :=
  match s with
  | EmptyString => Some acc
  | String c s' =>
      match digit c with
      | Some d => number (10 * acc + d) s'
      | None => None
      end
  end.

Definition iso_date (text : string) : option Timestamp :=
  if (String.length text =? 10)%nat
     && String.eqb (String.substring 4 1 text) "-"
     && String.eqb (String.substring 7 1 text) "-"
  then
    match number 0 (String.substring 0 4 text),
          number 0 (String.substring 5 2 text),
          number 0 (String.substring 8 2 text) with
    | Some y, Some m, Some d =>
        if (1 <=? m) && (m <=? 12) && (1 <=? d) && (d <=? 31)
        then Some (midnight y m d) else None
    | _, _, _ => None
    end
  else None.

(** The conversion of a column whose dates are written [YYYY-MM-DD]:
    that is the format of the column, and a cell that is not in it
    becomes [NaT]. *)
Definition to_datetime_coerce (col : list (option string))
  : list (option Timestamp) :=
  map (fun cell => match cell with
                   | Some text => iso_date text
                   | None => None
                   end) col.

(** A file is described by what [pd.read_csv] makes of it under each
    delimiter and by its decoded lines. *)
Record File := mkFile {
  parsed_with : ascii -> option (list RawRow);
  text_lines : Py.Result (list string)
}.

Definition read_csv (d : ascii) (f : File) : option (list RawRow) :=
  parsed_with f d.

Definition interest_paid : Row :=
  mkRow (Some (midnight 2024 1 5)) "INT" (Some "Bank"%string) (-10000).
Definition interest_earned : Row :=
  mkRow (Some (midnight 2024 1 6)) "INT" (Some "Bank"%string) 3000.

Definition january : list Row := [interest_paid; interest_earned].

Definition interest_nil : Row :=
  mkRow (Some (midnight 2024 1 7)) "INT" (Some "Bank"%string) 0.

Definition new_year : list Row :=
  [ mkRow (Some (midnight 2024 1 1)) "DEBIT" (Some "Shop"%string) (-5000);
    mkRow (Some (midnight 2024 1 1)) "CREDIT" (Some "Work"%string) 5000 ].

Definition bad_date_row : RawRow :=
  mkRaw (Some "not a date"%string) "DEBIT" (Some "Shop"%string) (-500).
Definition good_date_row : RawRow :=
  mkRaw (Some "2024-01-05"%string) "DEBIT" (Some "Shop"%string) (-700).

(** Nothing parses under any delimiter. *)
Definition unreadable : File :=
  mkFile (fun _ => None) (Py.Ok ["a|b"%string]).

(** Only the semicolon reading parses. *)
Definition semicolon_file : File :=
  mkFile (fun d => if Ascii.eqb d Loader.semicolon
                   then Some [good_date_row] else None)
         (Py.Ok ["Avail Bal: $1,234.56 as of 2024-01-01"%string]).

End Sample.

(* ================================================================== *)
(** * Predicates on text *)

Module Text.

(** The character occurs in the string. *)
Fixpoint has_char (c : ascii) (s : string) : bool :=
  match s with
  | EmptyString => false
  | String c' s' => Ascii.eqb c' c || has_char c s'
  end.

Definition starts_with_space (s : string) : bool :=
  match s with
  | EmptyString => false
  | String c _ => Py.isspace c
  end.

Fixpoint ends_with_space (s : string) : bool :=
  match s with
  | EmptyString => false
  | String c s' =>
      match s' with
      | EmptyString => Py.isspace c
      | String _ _ => ends_with_space s'
      end
  end.

End Text.

(* ================================================================== *)
(** * Rows that belong to a group *)

Module Groups.

(** The row has a key: groupby puts it in some group. *)
Definition keyed {K A : Type} (key : A -> option K) (r : A) : bool :=
  match key r with
  | Some _ => true
  | None => false
  end.

End Groups.

(* ================================================================== *)
(** * The default values of the two date inputs
      (Overview 106-112, Spending 79-85) *)

Module Defaults.
Import Calendar Table Page.

(** [st.date_input(label, value)] left untouched gives back the day of
    its default value. *)
Definition date_input (value : Timestamp) : date := day_number value.

(** [(date1, date2)] when the user changes nothing ([None]: the table
    has no dated row, so the defaults are [NaT]). *)
Definition default_window (df : list Row) : option (date * date) :=
  match start_date df, end_date df with
  | Some first, Some last => Some (date_input first, date_input last)
  | _, _ => None
  end.

Definition at_midnight (ts : Timestamp) : Prop := ts mod ns_per_day = 0.

(** The row has a date. *)
Definition dated (r : Row) : bool :=
  match Date r with
  | Some _ => true
  | None => false
  end.

End Defaults.

(* ================================================================== *)
(** * Spending Analysis: the block behind the guard (lines 74-143) *)

Module SpendingPage.
Import Calendar Table Page Defaults Spending.

(** Lines 83-84.  The defaults of the two date inputs are the least and
    the greatest date of the column; when no row has a date they are
    [NaT], which [st.sidebar.date_input] does not take: the page stops
    there with an exception.  Otherwise each input gives a calendar
    date: the day of its default when the user left it alone ([None]),
    the user's choice otherwise. *)
Inductive DateInputs :=
| Chosen (date1 date2 : date)
| DateInputFails.

Definition chosen (choice : option date) (default : date) : date :=
  match choice with
  | Some d => d
  | None => default
  end.

Definition date_inputs (choice1 choice2 : option date) (df : list Row)
  : DateInputs :=
  match default_window df with
  | Some (first, last) => Chosen (chosen choice1 first) (chosen choice2 last)
  | None => DateInputFails
  end.

(** What the block computes and shows for the chosen dates: the period
    (line 88), the filtered table, the total and the two charts' data. *)
Record Analysis := mkAnalysis {
  period : date * date;
  filtered : list Row;
  expenses : Z;
  monthly : list (string * Z);
  weekly : list (string * Z)
}.

Definition analyse (date1 date2 : date) (df : list Row) : Analysis :=
  let df_filtered := date_filter date1 date2 df in
  mkAnalysis (date1, date2) df_filtered
             (total_expenses df_filtered)
             (monthly_spending df_filtered)
             (weekly_spending df_filtered).

Inductive Outcome :=
| Skipped                                  (* no table, or no row *)
| Failed                                   (* a date input raised *)
| Analysed (df : list Row) (a : Analysis).

Section Column.
Variable to_datetime_coerce : list (option string) -> list (option Timestamp).

(** Lines 74-143, for a table that has the columns the page uses. *)
Definition page (choice1 choice2 : option date) (df : option (list RawRow))
  : Outcome :=
  match df with
  | Some (r :: rest) =>
      let df := Dates.convert_coerce to_datetime_coerce (r :: rest) in
      match date_inputs choice1 choice2 df with
      | Chosen date1 date2 => Analysed df (analyse date1 date2 df)
      | DateInputFails => Failed
      end
  | Some [] => Skipped
  | None => Skipped
  end.
End Column.

End SpendingPage.

(* ================================================================== *)
(** * The candidates of the loader, in order *)

Module Candidates.
Import Table.

Section Reader.
Variable File : Type.
Variable read_csv : ascii -> File -> option (list RawRow).

(** The first reading that succeeds among [ds]. *)
Fixpoint first_reading (f : File) (ds : list ascii)
  : option (list RawRow) :=
  match ds with
  | [] => None
  | d :: rest =>
      match read_csv d f with
      | Some df => Some df
      | None => first_reading f rest
      end
  end.
End Reader.

End Candidates.

(* ================================================================== *)
(** * The Getting-Started page and the session (1_Description.py 58-90) *)

Module Description.

(** [range(start, stop, step)] for a positive step. *)
Definition range (start stop step : Z) : list Z :=
  map (fun k => start + step * Z.of_nat k)
      (seq 0 (Z.to_nat ((stop - start + step - 1) / step))).

Section Session.
Variable File : Type.

(** The two keys of [st.session_state] the pages use; [None]: the key
    is not there. *)
Record Session := mkSession {
  uploaded_file : option (option File);
  file_uploaded : option bool
}.

Definition new_session : Session := mkSession None None.

Inductive Outcome :=
| SwitchedToOverview (bar : list Z)
    (* the values given to the progress bar, then st.switch_page *)
| StillAvailable
    (* st.success("File is still available in session state.") *)
| PleaseUpload.
    (* st.info("Please upload a CSV file to get started.") *)

(** Lines 59-62. *)
Definition initialise (s : Session) : Session :=
  mkSession
    (match uploaded_file s with
     | None => Some None
     | Some v => Some v
     end)
    (match file_uploaded s with
     | None => Some false
     | Some b => Some b
     end).

(** Lines 58-90; [upload] is what [st.file_uploader] returns. *)
Definition description_run (upload : option File) (s : Session)
  : Session * Outcome :=
  let s := initialise s in
  match upload with
  | Some f =>
      (mkSession (Some (Some f)) (Some true),
       SwitchedToOverview (range 0 101 5 ++ [100]))
  | None =>
      (s, match file_uploaded s with
          | Some true => StillAvailable
          | _ => PleaseUpload
          end)
  end.

(** The guard at the top of the other two pages: the file they go on
    with, or [None] when they stop on "Please upload a CSV file". *)
Definition page_guard (s : Session) : option File :=
  match uploaded_file s with
  | Some (Some f) => Some f
  | _ => None
  end.

Definition present (u : option File) : bool :=
  match u with
  | Some _ => true
  | None => false
  end.

(** The session after a series of visits to the page. *)
Definition visits (uploads : list (option File)) (s : Session) : Session :=
  fold_left (fun s upload => fst (description_run upload s)) uploads s.

(** The file of the last visit that uploaded one. *)
Definition keep_latest (acc upload : option File) : option File :=
  match upload with
  | Some f => Some f
  | None => acc
  end.

Definition latest (uploads : list (option File)) : option File :=
  fold_left keep_latest uploads None.
End Session.

End Description.

(* ================================================================== *)
(** * More sample data *)

Module Sample2.
Import Calendar Table.

(** A purchase at 14:30 on the last day of the table. *)
Definition afternoon : Timestamp := midnight 2024 1 6 + 52200000000000.

Definition morning_and_afternoon : list Row :=
  [ mkRow (Some (midnight 2024 1 5)) "DEBIT" (Some "Shop"%string) (-1000);
    mkRow (Some afternoon) "DEBIT" (Some "Shop"%string) (-2000) ].

Definition debits : list Row :=
  [ mkRow (Some (midnight 2024 1 5)) "DEBIT" (Some "Shop"%string) (-1000);
    mkRow (Some (midnight 2024 2 6)) "EFTPOS" (Some "Cafe"%string) (-250);
    mkRow (Some (midnight 2024 2 7)) "CREDIT" (Some "Work"%string) 9000 ].

(** Every reading fails but the balance line is well formed. *)
Definition balance_only : Sample.File :=
  Sample.mkFile (fun _ => None)
                (Py.Ok ["Avail Bal: $1,234.56 as of 2024-01-01"%string]).

(** The table reads, the balance line has no colon. *)
Definition no_colon : Sample.File :=
  Sample.mkFile (fun _ => Some [Sample.good_date_row])
                (Py.Ok ["Avail Bal $500 as of today"%string]).

End Sample2.

(* ================================================================== *)
(** * Facts about lists and sums *)

Section ListFacts.
Context {A : Type}.

Lemma filter_filter (f g : A -> bool) (l : list A) :
  filter f (filter g l) = filter (fun x => g x && f x) l.
Proof.
  induction l as [|x l IH]; simpl; [reflexivity|].
  destruct (g x); simpl; [destruct (f x)|]; now rewrite IH.
Qed.

Lemma filter_idempotent (f : A -> bool) (l : list A) :
  filter f (filter f l) = filter f l.
Proof.
  rewrite filter_filter. apply filter_ext. intros x. now destruct (f x).
Qed.

Lemma filter_nil_iff (f : A -> bool) (l : list A) :
  filter f l = [] <-> forall x, In x l -> f x = false.
Proof.
  induction l as [|x l IH]; simpl.
  - split; [intros _ y []|reflexivity].
  - destruct (f x) eqn:E.
    + split; [discriminate|]. intros H. rewrite (H x) in E by now left.
      discriminate.
    + rewrite IH. split.
      * intros H y [<-|Hy]; auto.
      * intros H y Hy. apply H. now right.
Qed.
End ListFacts.

Lemma isin_In (v : string) (values : list string) :
  Pandas.isin v values = true <-> In v values.
Proof.
  unfold Pandas.isin. rewrite existsb_exists. split.
  - intros (x & Hx & E). apply String.eqb_eq in E. now subst.
  - intros H. exists v. split; [assumption|apply String.eqb_refl].
Qed.

(* ================================================================== *)
(** * Comparisons of floats *)

Section FloatFacts.
Import Floats.
Local Open Scope float_scope.

Lemma SFcompare_antisym (x y : spec_float) (c : comparison) :
  SFcompare x y = Some c -> SFcompare y x = Some (CompOpp c).
Proof.
  destruct x as [s1|s1| |s1 m1 e1], y as [s2|s2| |s2 m2 e2]; simpl;
    try discriminate; intros [= <-];
    try (destruct s1; reflexivity); try (destruct s2; reflexivity);
    try (destruct s1, s2; reflexivity).
  f_equal. rewrite (Z.compare_antisym e1 e2).
  destruct s1, s2; try reflexivity;
    destruct (e1 ?= e2)%Z; simpl; try reflexivity;
    rewrite (Pos.compare_cont_antisym m1 m2 Eq); reflexivity.
Qed.

Lemma SFcompare_number (x y : spec_float) :
  SFcompare x y = None -> x = S754_nan \/ y = S754_nan.
Proof.
  destruct x, y; simpl; try discriminate; auto.
Qed.

Lemma SFeqb_self (x : spec_float) : SFeqb x x = false -> x = S754_nan.
Proof.
  unfold SFeqb. destruct x as [s|s| |s m e]; simpl; auto; try discriminate.
  - destruct s; discriminate.
  - rewrite Z.compare_refl.
    destruct s; rewrite Pos.compare_cont_refl; discriminate.
Qed.

Lemma is_nan_Prim2SF (x : float) : is_nan x = true <-> Prim2SF x = S754_nan.
Proof.
  unfold is_nan. rewrite FloatAxioms.eqb_spec. split.
  - intros H. apply SFeqb_self. now destruct (SFeqb _ _).
  - intros ->. reflexivity.
Qed.

Lemma ltb_nan_l (x y : float) : is_nan x = true -> (x <? y) = false.
Proof.
  intros H. apply is_nan_Prim2SF in H. rewrite ltb_spec, H. reflexivity.
Qed.

Lemma ltb_nan_r (x y : float) : is_nan y = true -> (x <? y) = false.
Proof.
  intros H. apply is_nan_Prim2SF in H. rewrite ltb_spec, H.
  unfold SFltb. now destruct (Prim2SF x).
Qed.

Lemma leb_nan_l (x y : float) : is_nan x = true -> (x <=? y) = false.
Proof.
  intros H. apply is_nan_Prim2SF in H. rewrite leb_spec, H. reflexivity.
Qed.

Lemma leb_nan_r (x y : float) : is_nan y = true -> (x <=? y) = false.
Proof.
  intros H. apply is_nan_Prim2SF in H. rewrite leb_spec, H.
  unfold SFleb. now destruct (Prim2SF x).
Qed.

(** Two numbers are always comparable. *)
Lemma not_ltb_leb (x y : float) :
  is_nan x = false -> is_nan y = false ->
  (x <? y) = false -> (y <=? x) = true.
Proof.
  intros Hx Hy. rewrite ltb_spec, leb_spec. unfold SFltb, SFleb.
  destruct (SFcompare (Prim2SF x) (Prim2SF y)) as [c|] eqn:E.
  - rewrite (SFcompare_antisym _ _ _ E). now destruct c.
  - apply SFcompare_number in E. destruct E as [E|E];
      apply is_nan_Prim2SF in E; congruence.
Qed.

Lemma ltb_not_eqb (x y : float) : (x <? y) = true -> (y =? x) = false.
Proof.
  rewrite ltb_spec, FloatAxioms.eqb_spec. unfold SFltb, SFeqb.
  destruct (SFcompare (Prim2SF x) (Prim2SF y)) as [c|] eqn:E;
    [|discriminate].
  rewrite (SFcompare_antisym _ _ _ E). now destruct c.
Qed.
End FloatFacts.

(* ================================================================== *)
(** * Savings progress *)

Section SavingsFacts.
Import Floats.
Import Py Savings.
Local Open Scope float_scope.

(** What [min(max(progress, 0), 100)] is, case by case. *)
Lemma clamp_cases (p : float) :
  ((p <? 0) = true -> min (max p 0) 100 = 0)
  /\ ((p <? 0) = false -> (100 <? p) = true -> min (max p 0) 100 = 100)
  /\ ((p <? 0) = false -> (100 <? p) = false -> min (max p 0) 100 = p).
Proof.
  unfold min, max. split; [|split].
  - intros ->. reflexivity.
  - intros -> ->. reflexivity.
  - intros -> ->. reflexivity.
Qed.

Lemma clamped_number (p : float) :
  is_nan p = false ->
  (0 <=? min (max p 0) 100) = true /\ (min (max p 0) 100 <=? 100) = true.
Proof.
  intros Hp. destruct (clamp_cases p) as (H1 & H2 & H3).
  destruct (p <? 0) eqn:E1.
  - rewrite (H1 eq_refl). split; reflexivity.
  - destruct (100 <? p) eqn:E2.
    + rewrite (H2 eq_refl eq_refl). split; reflexivity.
    + rewrite (H3 eq_refl eq_refl). split; now apply not_ltb_leb.
Qed.

Lemma py_clamp (p : float) : min (max p 0) 100 = Spec.clamp p 0 100.
Proof.
  destruct (clamp_cases p) as (H1 & H2 & H3). unfold Spec.clamp.
  destruct (p <? 0) eqn:E1; [now apply H1|].
  destruct (100 <? p) eqn:E2; [now apply H2|now apply H3].
Qed.

Lemma clamped_nan (p : float) :
  is_nan p = true -> min (max p 0) 100 = p.
Proof.
  intros Hp. apply (clamp_cases p).
  - now apply ltb_nan_l.
  - now apply ltb_nan_r.
Qed.

(** C2, as the code has it.  For a goal above zero the page computes
    [min(max(balance / goal * 100, 0), 100)] on floats, which is
    [clamp(balance / goal * 100, 0, 100)], and the division is never by
    zero; for any other goal it is in the NoGoal state and nothing is
    divided.  When [balance / goal * 100] is a number
    (negative balances included) the result lies in [[0, 100]].  When it
    is NaN, as for a balance text ["nan"], both comparisons of the clamp
    are false and the result is that NaN, which is neither at least 0
    nor at most 100. *)
Theorem savings_progress_clamps_numbers_only
        (available_balance savings_goal : float) :
  let progress := available_balance / savings_goal * 100 in
  ((0 <? savings_goal) = true ->
     savings_progress available_balance savings_goal
     = Ok (Progress (min (max progress 0) 100))
     /\ min (max progress 0) 100 = Spec.clamp progress 0 100
     /\ (is_nan progress = false ->
           (0 <=? min (max progress 0) 100) = true
           /\ (min (max progress 0) 100 <=? 100) = true)
     /\ (is_nan progress = true ->
           is_nan (min (max progress 0) 100) = true
           /\ (0 <=? min (max progress 0) 100) = false
           /\ (min (max progress 0) 100 <=? 100) = false))
  /\ ((0 <? savings_goal) = false ->
        savings_progress available_balance savings_goal = Ok NoGoal)
  /\ (forall e, savings_progress available_balance savings_goal <> Raise e).
Proof.
  intros progress. unfold savings_progress, truediv.
  destruct (0 <? savings_goal) eqn:Hg.
  - rewrite (ltb_not_eqb 0 savings_goal Hg).
    split; [|split]; [|discriminate|discriminate].
    intros _. split; [reflexivity|]. split; [apply py_clamp|]. split.
    + apply clamped_number.
    + intros Hn. rewrite (clamped_nan _ Hn). split; [exact Hn|]. split.
      * now apply leb_nan_r.
      * now apply leb_nan_l.
  - split; [discriminate|]. split; [reflexivity|discriminate].
Qed.

Example remove_currency_marks :
  remove ","%char (remove "$"%char "$1,234.56") = "1234.56"%string.
Proof. reflexivity. Qed.

Example negative_balance_clamped :
  savings_progress (-50) 200 = Ok (Progress 0).
Proof. reflexivity. Qed.

Lemma savings_progress_clamps_numbers_only_witness :
  (0 <? 100) = true
  /\ is_nan (nan / 100 * 100) = true
  /\ savings_progress nan 100 = Ok (Progress nan)
  /\ (0 <=? nan) = false.
Proof.
  assert (Hg : (0 <? 100) = true) by reflexivity.
  assert (Hn : is_nan (nan / 100 * 100) = true) by reflexivity.
  split; [exact Hg|]. split; [exact Hn|].
  pose proof (savings_progress_clamps_numbers_only nan 100) as H.
  cbv zeta in H. destruct H as (H & _). destruct (H Hg) as (H1 & _ & _ & H3).
  split; [exact H1|]. exact (proj1 (proj2 (H3 Hn))).
Defined.
End SavingsFacts.

(* ================================================================== *)
(** * The classification behind the two totals *)

Section ClassifierFacts.
Import Table Pandas Page.

Lemma not_both (r : Row) :
  counts_as_expense r = true -> counts_as_income r = true -> False.
Proof.
  unfold counts_as_expense, counts_as_income.
  rewrite !andb_true_iff, Z.ltb_lt, Z.ltb_lt. lia.
Qed.

Lemma counts_as_expense_iff (r : Row) :
  counts_as_expense r = true
  <-> In (TranType r) cash_outflow_trantypes /\ Amount r < 0.
Proof.
  unfold counts_as_expense. now rewrite andb_true_iff, isin_In, Z.ltb_lt.
Qed.

Lemma counts_as_income_iff (r : Row) :
  counts_as_income r = true
  <-> In (TranType r) cash_inflow_trantypes /\ 0 < Amount r.
Proof.
  unfold counts_as_income. now rewrite andb_true_iff, isin_In, Z.ltb_lt.
Qed.

Lemma is_outflow_expense (r : Row) : is_outflow r = counts_as_expense r.
Proof.
  unfold is_outflow, classify.
  now destruct (counts_as_expense r), (counts_as_income r).
Qed.

Lemma is_inflow_income (r : Row) : is_inflow r = counts_as_income r.
Proof.
  unfold is_inflow, classify.
  destruct (counts_as_expense r) eqn:E, (counts_as_income r) eqn:I;
    try reflexivity.
  destruct (not_both r E I).
Qed.

Lemma total_expenses_outflow (df : list Row) :
  total_expenses df = sum (map Amount (filter is_outflow df)).
Proof.
  unfold total_expenses, df_outflow, boolean_index.
  rewrite filter_filter. do 2 f_equal. apply filter_ext.
  intros r. now rewrite is_outflow_expense.
Qed.

Lemma total_income_inflow (df : list Row) :
  total_income df = sum (map Amount (filter is_inflow df)).
Proof.
  unfold total_income, df_inflow, boolean_index.
  rewrite filter_filter. do 2 f_equal. apply filter_ext.
  intros r. now rewrite is_inflow_income.
Qed.

(** C1.  A row is Outflow iff its type is one of D/D, INT, DEBIT, EFTPOS,
    BILLPAY and its amount is below zero, Inflow iff its type is one of
    CREDIT, DEPOSIT, INT, TFR IN, D/C and its amount is above zero, and
    Neither otherwise; an amount of exactly zero is Neither whatever
    the type, an INT row goes by the sign of its amount alone, and the
    two totals of the pages are the sums over the Outflow rows and over
    the Inflow rows. *)
Theorem classification_rule :
  (forall r : Row,
      (classify r = Outflow
       <-> In (TranType r) cash_outflow_trantypes /\ Amount r < 0)
      /\ (classify r = Inflow
          <-> In (TranType r) cash_inflow_trantypes /\ 0 < Amount r)
      /\ (classify r = Neither
          <-> ~ (In (TranType r) cash_outflow_trantypes /\ Amount r < 0)
              /\ ~ (In (TranType r) cash_inflow_trantypes /\ 0 < Amount r))
      /\ (Amount r = 0 -> classify r = Neither)
      /\ (TranType r = "INT"%string ->
          classify r = if Amount r <? 0 then Outflow
                       else if 0 <? Amount r then Inflow
                       else Neither))
  /\ (forall df : list Row,
         total_expenses df = sum (map Amount (filter is_outflow df))
         /\ total_income df = sum (map Amount (filter is_inflow df))).
Proof.
  split; [|intros df; split;
           [apply total_expenses_outflow|apply total_income_inflow]].
  intros r.
  pose proof (counts_as_expense_iff r) as HE.
  pose proof (counts_as_income_iff r) as HI.
  pose proof (not_both r) as HX.
  assert (Hint : TranType r = "INT"%string ->
                 counts_as_expense r = (Amount r <? 0)
                 /\ counts_as_income r = (0 <? Amount r)).
  { intros E. unfold counts_as_expense, counts_as_income. now rewrite E. }
  assert (Hzero : Amount r = 0 -> counts_as_expense r = false
                                  /\ counts_as_income r = false).
  { intros Hz. unfold counts_as_expense, counts_as_income. rewrite Hz.
    simpl. now rewrite !andb_false_r. }
  unfold classify.
  destruct (counts_as_expense r) eqn:E, (counts_as_income r) eqn:I;
    try (exfalso; now apply HX).
  - split; [tauto|]. split; [split; [discriminate|]|].
    { intros H. apply HI in H. discriminate. }
    split; [split; [discriminate|]|].
    { intros [H _]. exfalso. now apply H, HE. }
    split.
    + intros Hz. destruct (Hzero Hz). discriminate.
    + intros Ht. destruct (Hint Ht) as [<- _]. reflexivity.
  - split; [split; [discriminate|]|].
    { intros H. apply HE in H. discriminate. }
    split; [tauto|]. split; [split; [discriminate|]|].
    { intros [_ H]. exfalso. now apply H, HI. }
    split.
    + intros Hz. destruct (Hzero Hz). discriminate.
    + intros Ht. destruct (Hint Ht) as [<- <-]. reflexivity.
  - split; [split; [discriminate|]|].
    { intros H. apply HE in H. discriminate. }
    split; [split; [discriminate|]|].
    { intros H. apply HI in H. discriminate. }
    split; [split; [intros _|reflexivity]|].
    { split; intros H; [apply HE in H|apply HI in H]; discriminate. }
    split; [reflexivity|].
    intros Ht. destruct (Hint Ht) as [<- <-]. reflexivity.
Qed.

Lemma classification_rule_witness :
  Amount Sample.interest_nil = 0
  /\ classify Sample.interest_nil = Neither.
Proof.
  split; [reflexivity|].
  destruct classification_rule as [H _].
  destruct (H Sample.interest_nil) as (_ & _ & _ & Hzero & _).
  apply Hzero. reflexivity.
Defined.

Example debit_and_credit_on_new_year :
  total_expenses Sample.new_year = -5000
  /\ total_income Sample.new_year = 5000
  /\ Overview.cash_flow_data Sample.new_year
     = Overview.mkCashFlow [Some (Calendar.midnight 2024 1 1)]
                           [Some (5000 # 1)%Q] [Some (5000 # 1)%Q].
Proof. repeat split. Qed.
End ClassifierFacts.

(* ================================================================== *)
(** * Balance extraction *)

Section BalanceFacts.
Import Py Balance Loader Trace.
Local Open Scope string_scope.

Lemma find_from_bounds (sub s : string) (i : Z) :
  find_from sub s i = -1 \/ i <= find_from sub s i <= i + len s.
Proof.
  revert i. induction s as [|c s IH]; intros i; cbn [find_from].
  - destruct (String.prefix sub ""); [right; unfold len; simpl; lia|now left].
  - destruct (String.prefix sub (String c s)).
    + right. unfold len. simpl String.length. lia.
    + destruct (IH (i + 1)) as [H|H]; [now left|right].
      unfold len in *. simpl String.length. lia.
Qed.

(** No line mentions the balance: [balance_value] is left as it was. *)
Lemma scan_lines_without_balance (lines : list string) (initial : string) :
  (forall line, In line lines -> contains "Avail Bal" line = false) ->
  scan_lines lines initial = Ok initial.
Proof.
  induction lines as [|line lines IH]; simpl; [reflexivity|].
  intros H. rewrite (H line) by now left. apply IH.
  intros l Hl. apply H. now right.
Qed.

(** The first line that mentions the balance decides. *)
Lemma scan_lines_first_balance_line (before after : list string)
      (line initial : string) :
  (forall l, In l before -> contains "Avail Bal" l = false) ->
  contains "Avail Bal" line = true ->
  scan_lines (before ++ line :: after) initial = balance_of_line line.
Proof.
  induction before as [|l before IH]; simpl; intros H Hline.
  - now rewrite Hline.
  - rewrite (H l) by now left. apply IH; [|assumption].
    intros l' Hl'. apply H. now right.
Qed.

(** With the marker at position [n], the balance text is the second
    colon-separated part of the first [n] characters, stripped. *)
Lemma balance_of_line_with_marker (line : string) (n : nat) :
  find " as of" line = Z.of_nat n ->
  balance_of_line line
  = (seg <- getitem (split ":" (String.substring 0 n line)) 1 ;;
     Ok (strip seg)).
Proof.
  intros H. unfold balance_of_line, slice_to. rewrite H.
  destruct (find_from_bounds " as of" line 0) as [Hb|Hb];
    unfold find in H; rewrite H in Hb; [lia|].
  destruct (Z.of_nat n <? 0)%Z eqn:E; [apply Z.ltb_lt in E; lia|].
  replace (Z.to_nat (Z.min (Z.of_nat n) (len line))) with n by lia.
  reflexivity.
Qed.

(** Without the marker, it is taken from the line less its last
    character. *)
Lemma balance_of_line_without_marker (line : string) :
  find " as of" line = -1 ->
  balance_of_line line
  = (seg <- getitem (split ":" (String.substring
                                  0 (String.length line - 1) line)) 1 ;;
     Ok (strip seg)).
Proof.
  intros H. unfold balance_of_line, slice_to. rewrite H.
  change (-1 <? 0)%Z with true. cbv iota.
  replace (Z.to_nat (Z.max (len line + -1) 0))
    with (String.length line - 1)%nat by (unfold len; lia).
  reflexivity.
Qed.

(** C4.  What the loop does on a balance line that lacks the marker or
    the colon.  Without [" as of"], [find] answers [-1] and the slice
    [line[:-1]] only drops the last character, so a balance text comes
    out, cut short: ["$50"] for a balance of $500.  Without a colon the
    index [[1]] raises [IndexError]; on the page the [except] branch
    catches it, reports a file-reading error and re-reads a file whose
    standard read was never tried. *)
Theorem balance_line_without_marker_or_colon :
  extract_balance ["Avail Bal: $500"] = Ok "$50"
  /\ extract_balance ["Avail Bal $500 as of today"] = Raise IndexError
  /\ overview_load Sample.File Sample.read_csv Sample.text_lines
       (Sample.mkFile (fun _ => Some [Sample.good_date_row])
                      (Ok ["Avail Bal $500 as of today"]))
     = ("N/A", Some [Sample.good_date_row], [ErrorReading; Read comma]).
Proof. repeat split. Qed.

Lemma balance_line_scenario :
  extract_balance
    ["Account 12"; "Avail Bal: $1,234.56 as of 2024-01-01"; "Date,Amount"]
  = Ok "$1,234.56".
Proof. reflexivity. Qed.
End BalanceFacts.

(* ================================================================== *)
(** * The delimiter fallback *)

Section LoaderFacts.
Import Py Table Trace Loader.
Variable File : Type.
Variable read_csv : ascii -> File -> option (list RawRow).
Variable read_lines : File -> Result (list string).

Lemma determine_delimiter_after_comma_failure (f : File) :
  read_csv comma f = None ->
  fst (determine_delimiter File read_csv f)
  = first_of_semicolon_tab File read_csv f
  /\ (first_of_semicolon_tab File read_csv f = None ->
      last (snd (determine_delimiter File read_csv f)) ErrorReading
      = ErrorAttemptsFailed).
Proof.
  intros Hc. unfold determine_delimiter, first_of_semicolon_tab. simpl.
  rewrite Hc.
  destruct (read_csv semicolon f) as [df|] eqn:Hs; simpl.
  - repeat split. discriminate.
  - destruct (read_csv tab f) as [df|] eqn:Ht; simpl.
    + repeat split. discriminate.
    + repeat split.
Qed.

(** On Spending Analysis the reads after a failed standard read are: the
    comma once more (the first candidate of the loop, failing as
    before), the semicolon, and the tab when the semicolon failed. *)
Lemma spending_reads_after_comma_failure (f : File) :
  read_csv comma f = None ->
  reads (snd (spending_load File read_csv f))
  = comma :: comma :: semicolon
    :: match read_csv semicolon f with
       | Some _ => []
       | None => [tab]
       end.
Proof.
  intros Hc. unfold spending_load, determine_delimiter. simpl.
  rewrite !Hc.
  destruct (read_csv semicolon f); [reflexivity|].
  destruct (read_csv tab f); reflexivity.
Qed.

(** The reads of the [except] branch: the comma first (failing as the
    standard read did), the semicolon, and the tab when the semicolon
    failed. *)
Lemma determine_delimiter_reads (f : File) :
  read_csv comma f = None ->
  reads (snd (determine_delimiter File read_csv f))
  = comma :: semicolon
    :: match read_csv semicolon f with
       | Some _ => []
       | None => [tab]
       end.
Proof.
  intros Hc. unfold determine_delimiter. simpl. rewrite Hc.
  destruct (read_csv semicolon f); [reflexivity|].
  destruct (read_csv tab f); reflexivity.
Qed.

(** C7, as the code has it.  When the standard comma read fails, the
    loop of the [except] branch reads the file with the comma again,
    then with the semicolon, then with the tab, in that order, stopping
    at the first reading that succeeds: the comma fails as before, so
    the table is the first success among semicolon, tab, and the tab is
    read only when the semicolon failed.  On the Overview page the
    standard read is skipped when the balance scan raised.  When every
    reading fails no table is produced and the run ends on the
    "attempts failed" error. *)
Theorem delimiter_fallback_retries_comma (f : File) :
  read_csv comma f = None ->
  let spending := spending_load File read_csv f in
  let overview := overview_load File read_csv read_lines f in
  let retried := comma :: semicolon
                 :: match read_csv semicolon f with
                    | Some _ => []
                    | None => [tab]
                    end in
  fst spending = first_of_semicolon_tab File read_csv f
  /\ snd (fst overview) = first_of_semicolon_tab File read_csv f
  /\ reads (snd spending) = comma :: retried
  /\ reads (snd overview)
     = match lines <- read_lines f ;; Balance.extract_balance lines with
       | Ok _ => comma :: retried
       | Raise _ => retried
       end
  /\ (first_of_semicolon_tab File read_csv f = None ->
      fst spending = None
      /\ snd (fst overview) = None
      /\ last (snd spending) ErrorReading = ErrorAttemptsFailed
      /\ last (snd overview) ErrorReading = ErrorAttemptsFailed).
Proof.
  intros Hc.
  destruct (determine_delimiter_after_comma_failure f Hc)
    as (Hdf & Hlast).
  pose proof (determine_delimiter_reads f Hc) as Hreads.
  unfold spending_load, overview_load. rewrite Hc.
  destruct (determine_delimiter File read_csv f) as [df events] eqn:Hd.
  simpl in Hdf, Hreads, Hlast.
  assert (Hne : events <> []).
  { unfold determine_delimiter in Hd.
    destruct (try_delimiters File read_csv f delimiters) as [d ev].
    destruct d; inversion Hd; discriminate. }
  assert (Hcons : last (Read comma :: events) ErrorReading
                  = last events ErrorReading).
  { destruct events; [congruence|reflexivity]. }
  assert (Hread : reads (Read comma :: events) = comma :: reads events)
    by reflexivity.
  destruct (lines <- read_lines f;; Balance.extract_balance lines);
    cbv zeta; simpl fst; simpl snd; rewrite ?Hread, Hreads;
    (split; [assumption|]); (split; [assumption|]);
    (split; [reflexivity|]); (split; [reflexivity|]);
    intros Hn; rewrite ?Hcons; repeat split; try congruence; auto.
Qed.
End LoaderFacts.

(** C7, the claim as written fails.  On a file that only the semicolon
    reads, the attempts after the failed standard read are the comma and
    the semicolon, not the semicolon alone; on a file that nothing reads
    they are the comma, the semicolon and the tab. *)
Lemma retry_starts_with_comma :
  Sample.read_csv Loader.comma Sample.semicolon_file = None
  /\ Loader.reads (snd (Loader.spending_load Sample.File Sample.read_csv
                                             Sample.semicolon_file))
     = [Loader.comma; Loader.comma; Loader.semicolon]
  /\ Loader.reads (snd (Loader.spending_load Sample.File Sample.read_csv
                                             Sample.unreadable))
     = [Loader.comma; Loader.comma; Loader.semicolon; Loader.tab]
  /\ tl (Loader.reads (snd (Loader.spending_load
                              Sample.File Sample.read_csv
                              Sample.unreadable)))
     <> [Loader.semicolon; Loader.tab]
  /\ tl (Loader.reads (snd (Loader.overview_load
                              Sample.File Sample.read_csv Sample.text_lines
                              Sample.unreadable)))
     <> [Loader.semicolon; Loader.tab].
Proof.
  split; [reflexivity|]. split; [reflexivity|]. split; [reflexivity|].
  split; discriminate.
Qed.

Lemma delimiter_fallback_retries_comma_witness :
  Sample.read_csv Loader.comma Sample.semicolon_file = None
  /\ Loader.reads (snd (Loader.spending_load Sample.File Sample.read_csv
                                             Sample.semicolon_file))
     = [Loader.comma; Loader.comma; Loader.semicolon]
  /\ Sample.read_csv Loader.comma Sample.unreadable = None
  /\ fst (Loader.spending_load Sample.File Sample.read_csv Sample.unreadable)
     = None.
Proof.
  assert (H1 : Sample.read_csv Loader.comma Sample.semicolon_file = None)
    by reflexivity.
  assert (H2 : Sample.read_csv Loader.comma Sample.unreadable = None)
    by reflexivity.
  split; [exact H1|]. split.
  - exact (proj1 (proj2 (proj2 (delimiter_fallback_retries_comma
                                  Sample.File Sample.read_csv
                                  Sample.text_lines
                                  Sample.semicolon_file H1)))).
  - split; [exact H2|].
    exact (proj1 (proj2 (proj2 (proj2 (proj2
             (delimiter_fallback_retries_comma
                Sample.File Sample.read_csv Sample.text_lines
                Sample.unreadable H2)))) eq_refl)).
Defined.

(* ================================================================== *)
(** * The date-range filter *)

Section FilterFacts.
Import Calendar Table Pandas Page.
Variables date1 date2 : date.

Lemma mask_in_window (r : Row) :
  ge_cell (Date r) (to_datetime_date date1)
  && le_cell (Date r) (to_datetime_date date2) = true
  <-> in_window date1 date2 r.
Proof.
  unfold in_window, ge_cell, le_cell. destruct (Date r) as [ts|].
  - rewrite andb_true_iff, !Z.leb_le. split.
    + intros H. now exists ts.
    + intros (ts' & E & H). now inversion E; subst.
  - split; [discriminate|]. intros (ts & E & _). discriminate.
Qed.

Lemma date_filter_In (df : list Row) (r : Row) :
  In r (date_filter date1 date2 df) <-> In r df /\ in_window date1 date2 r.
Proof.
  unfold date_filter, boolean_index.
  now rewrite filter_In, mask_in_window.
Qed.

Lemma date_filter_app (df1 df2 : list Row) :
  date_filter date1 date2 (df1 ++ df2)
  = date_filter date1 date2 df1 ++ date_filter date1 date2 df2.
Proof. apply filter_app. Qed.

Lemma date_filter_null (r : Row) (df : list Row) :
  Date r = None ->
  date_filter date1 date2 (r :: df) = date_filter date1 date2 df.
Proof. intros E. unfold date_filter, boolean_index. simpl. now rewrite E. Qed.

Lemma in_window_bounds (r : Row) :
  in_window date1 date2 r
  <-> exists ts, Date r = Some ts
                 /\ date1 * 86400000000000 <= ts <= date2 * 86400000000000.
Proof. reflexivity. Qed.

Lemma midnight_bounds_on_days (ts : Timestamp) :
  date1 * 86400000000000 <= ts <= date2 * 86400000000000
  <-> date1 <= ts / 86400000000000
      /\ (ts / 86400000000000 < date2 \/ ts = date2 * 86400000000000).
Proof.
  pose proof (Z.div_mod ts 86400000000000 ltac:(discriminate)) as E.
  pose proof (Z.mod_pos_bound ts 86400000000000 eq_refl) as B.
  lia.
Qed.

(** C9, as the code has it.  The filter goes through the table in order
    and keeps a row exactly when its timestamp lies between midnight of
    the start day and midnight of the end day, both included: the row's
    calendar day is at or after the start day and either before the end
    day, or the end day with the time 00:00:00 exactly.  Rows of the end
    day with a later time of day, and rows without a date, are left
    out.  Filtering the result again with the same window changes
    nothing. *)
Theorem date_filter_midnight_bounds_idempotent :
  date_filter date1 date2 [] = []
  /\ (forall r df,
        date_filter date1 date2 (r :: df)
        = date_filter date1 date2 [r] ++ date_filter date1 date2 df)
  /\ (forall r, date_filter date1 date2 [r] = [r]
                \/ date_filter date1 date2 [r] = [])
  /\ (forall df r,
        In r (date_filter date1 date2 df)
        <-> In r df
            /\ exists ts,
                 Date r = Some ts
                 /\ date1 * 86400000000000 <= ts <= date2 * 86400000000000)
  /\ (forall df r,
        In r (date_filter date1 date2 df)
        <-> In r df
            /\ exists ts,
                 Date r = Some ts
                 /\ date1 <= ts / 86400000000000
                 /\ (ts / 86400000000000 < date2
                     \/ ts = date2 * 86400000000000))
  /\ (forall df, date_filter date1 date2 (date_filter date1 date2 df)
                 = date_filter date1 date2 df).
Proof.
  split; [reflexivity|]. split; [|split; [|split; [|split]]].
  - intros r df. now rewrite <- date_filter_app.
  - intros r. unfold date_filter, boolean_index. simpl.
    destruct (ge_cell (Date r) (to_datetime_date date1)
              && le_cell (Date r) (to_datetime_date date2)); auto.
  - intros df r. now rewrite date_filter_In, in_window_bounds.
  - intros df r. rewrite date_filter_In, in_window_bounds. split.
    + intros (Hin & ts & E & H). split; [exact Hin|]. exists ts.
      split; [exact E|]. now apply midnight_bounds_on_days.
    + intros (Hin & ts & E & H). split; [exact Hin|]. exists ts.
      split; [exact E|]. now apply midnight_bounds_on_days.
  - intros df. apply filter_idempotent.
Qed.
End FilterFacts.

(** C9, the claim as written fails.  With the window from 2024-01-05 to
    2024-01-06, a purchase made at 14:30 on 2024-01-06 has a calendar
    date within the window, both bounds included, and the filter drops
    it. *)
Lemma end_day_afternoon_row_dropped :
  let d1 := Calendar.days_from_civil 2024 1 5 in
  let d2 := Calendar.days_from_civil 2024 1 6 in
  let purchase :=
    Table.mkRow (Some Sample2.afternoon) "DEBIT" (Some "Shop"%string)
                (-2000) in
  In purchase Sample2.morning_and_afternoon
  /\ d1 <= Sample2.afternoon / 86400000000000 <= d2
  /\ Calendar.day_number Sample2.afternoon = d2
  /\ ~ In purchase (Page.date_filter d1 d2 Sample2.morning_and_afternoon)
  /\ Page.date_filter d1 d2 Sample2.morning_and_afternoon
     = [Table.mkRow (Some (Calendar.midnight 2024 1 5)) "DEBIT"
                    (Some "Shop"%string) (-1000)].
Proof.
  intros d1 d2 purchase.
  split; [right; left; reflexivity|].
  split; [split; discriminate|].
  split; [reflexivity|].
  assert (E : Page.date_filter d1 d2 Sample2.morning_and_afternoon
              = [Table.mkRow (Some (Calendar.midnight 2024 1 5)) "DEBIT"
                             (Some "Shop"%string) (-1000)])
    by reflexivity.
  split; [|exact E].
  rewrite E. intros [H|[]]. discriminate H.
Qed.

Lemma date_filter_midnight_bounds_idempotent_witness :
  let d1 := Calendar.days_from_civil 2024 1 5 in
  let d2 := Calendar.days_from_civil 2024 1 6 in
  (In Sample.interest_earned (Page.date_filter d1 d2 Sample.january)
   <-> In Sample.interest_earned Sample.january
       /\ exists ts,
            Table.Date Sample.interest_earned = Some ts
            /\ d1 <= ts / 86400000000000
            /\ (ts / 86400000000000 < d2 \/ ts = d2 * 86400000000000))
  /\ Page.date_filter d1 d2 (Page.date_filter d1 d2 Sample.january)
     = Page.date_filter d1 d2 Sample.january.
Proof.
  intros d1 d2.
  pose proof (date_filter_midnight_bounds_idempotent d1 d2) as H.
  destruct H as (_ & _ & _ & _ & Hday & Hidem).
  split; [exact (Hday Sample.january Sample.interest_earned)|].
  exact (Hidem Sample.january).
Defined.

(* ================================================================== *)
(** * Rows whose date does not parse *)

Section DateFacts.
Import Py Calendar Table Pandas Page Dates Defaults Spending SpendingPage.

Lemma assign_Date_nth (df : list RawRow) (col : list (option Timestamp))
      (i : nat) (r : RawRow) (d : option Timestamp) :
  nth_error df i = Some r -> nth_error col i = Some d ->
  nth_error (assign_Date df col) i = Some (with_date r d).
Proof.
  revert col i. induction df as [|r0 df IH]; intros col i Hr Hd.
  - destruct i; discriminate.
  - destruct col as [|d0 col]; [destruct i; discriminate|].
    destruct i as [|i]; simpl in *.
    + now inversion Hr; inversion Hd.
    + now apply IH.
Qed.

Lemma assign_Date_length (df : list RawRow) (col : list (option Timestamp)) :
  List.length col = List.length df ->
  List.length (assign_Date df col) = List.length df.
Proof.
  revert col. induction df as [|r df IH]; intros col H; [reflexivity|].
  destruct col as [|d col]; [discriminate|]. simpl.
  f_equal. apply IH. now inversion H.
Qed.

Lemma column_min_null (col : list (option Z)) :
  column_min col = None <-> forall c, In c col -> c = None.
Proof.
  induction col as [|[x|] col IH]; simpl.
  - split; [intros _ c []|reflexivity].
  - split.
    + destruct (column_min col); discriminate.
    + intros H. discriminate (H (Some x)). now left.
  - rewrite IH. split.
    + intros H c [<-|Hc]; [reflexivity|now apply H].
    + intros H c Hc. apply H. now right.
Qed.

Lemma column_min_skips_null (l1 l2 : list (option Z)) :
  column_min (l1 ++ None :: l2) = column_min (l1 ++ l2).
Proof.
  induction l1 as [|[x|] l1 IH]; simpl; [reflexivity| |exact IH].
  now rewrite IH.
Qed.

Lemma column_max_skips_null (l1 l2 : list (option Z)) :
  column_max (l1 ++ None :: l2) = column_max (l1 ++ l2).
Proof.
  induction l1 as [|[x|] l1 IH]; simpl; [reflexivity| |exact IH].
  now rewrite IH.
Qed.

Lemma column_max_of_min (col : list (option Z)) :
  column_min col = None -> column_max col = None.
Proof.
  induction col as [|[x|] col IH]; simpl; auto.
  destruct (column_min col); discriminate.
Qed.

(** The date inputs fail exactly on a table without a dated row. *)
Lemma date_inputs_fail (choice1 choice2 : option date) (df : list Row) :
  date_inputs choice1 choice2 df = DateInputFails
  <-> forall r, In r df -> Date r = None.
Proof.
  unfold date_inputs, default_window, start_date, end_date.
  assert (E : column_min (map Date df) = None
              <-> forall r, In r df -> Date r = None).
  { rewrite column_min_null. split.
    - intros H r Hr. apply H. now apply in_map.
    - intros H c Hc. apply in_map_iff in Hc.
      destruct Hc as (r & <- & Hr). now apply H. }
  destruct (column_min (map Date df)) as [lo|] eqn:Hmin.
  - destruct (column_max (map Date df)) as [hi|] eqn:Hmax.
    + split; [discriminate|]. intros H. apply E in H. discriminate.
    + split; [|reflexivity]. intros _.
      exfalso. revert Hmin Hmax. clear.
      induction (map Date df) as [|[x|] col IH]; simpl; try discriminate.
      * destruct (column_max col); discriminate.
      * exact IH.
  - split; [|reflexivity]. intros _. now apply E.
Qed.

Lemma date_inputs_skip_null (choice1 choice2 : option date)
      (before after : list Row) (r : Row) :
  Date r = None ->
  date_inputs choice1 choice2 (before ++ r :: after)
  = date_inputs choice1 choice2 (before ++ after).
Proof.
  intros E. unfold date_inputs, default_window, start_date, end_date.
  rewrite !map_app. simpl. rewrite E.
  now rewrite column_min_skips_null, column_max_skips_null.
Qed.

Lemma date_filter_skip_null (date1 date2 : date)
      (before after : list Row) (r : Row) :
  Date r = None ->
  date_filter date1 date2 (before ++ r :: after)
  = date_filter date1 date2 (before ++ after).
Proof.
  intros E. rewrite !date_filter_app. f_equal.
  now apply date_filter_null.
Qed.

Lemma null_date_not_filtered (date1 date2 : date) (df : list Row) (r : Row) :
  Date r = None -> ~ In r (date_filter date1 date2 df).
Proof.
  intros E H. apply date_filter_In in H.
  destruct H as (_ & ts & E' & _). congruence.
Qed.

Variable to_datetime_coerce : list (option string) -> list (option Timestamp).

Lemma failed_row_converted (df : list RawRow) (i : nat) :
  date_fails to_datetime_coerce df i ->
  exists r, nth_error df i = Some r
            /\ nth_error (convert_coerce to_datetime_coerce df) i
               = Some (with_date r None).
Proof.
  intros (r & text & Hr & _ & Hd). exists r. split; [exact Hr|].
  now apply assign_Date_nth.
Qed.

(** C10.  On the Spending-Analysis page a row whose date cell fails to
    parse stays in the converted table, at its place and with a null
    date.  No window keeps it, and what the page computes and shows is
    what it computes from the converted table with that row taken out:
    the defaults of the date inputs, the period, the filtered table,
    the total expenses, the monthly and the weekday totals. *)
Theorem failed_date_row_contributes_nothing (df : list RawRow) (i : nat) :
  date_fails to_datetime_coerce df i ->
  exists raw before after,
    nth_error df i = Some raw
    /\ convert_coerce to_datetime_coerce df
       = before ++ with_date raw None :: after
    /\ List.length before = i
    /\ (forall date1 date2,
          ~ In (with_date raw None)
               (date_filter date1 date2
                            (convert_coerce to_datetime_coerce df)))
    /\ (forall date1 date2,
          let with_row :=
            date_filter date1 date2
                        (convert_coerce to_datetime_coerce df) in
          let without_row := date_filter date1 date2 (before ++ after) in
          with_row = without_row
          /\ total_expenses with_row = total_expenses without_row
          /\ monthly_spending with_row = monthly_spending without_row
          /\ weekly_spending with_row = weekly_spending without_row
          /\ analyse date1 date2 (convert_coerce to_datetime_coerce df)
             = analyse date1 date2 (before ++ after))
    /\ (forall choice1 choice2,
          date_inputs choice1 choice2
                      (convert_coerce to_datetime_coerce df)
          = date_inputs choice1 choice2 (before ++ after)).
Proof.
  intros H. destruct (failed_row_converted df i H) as (raw & Hraw & Hnth).
  destruct (nth_error_split _ _ Hnth) as (before & after & E & Hlen).
  exists raw, before, after.
  split; [exact Hraw|]. split; [exact E|]. split; [exact Hlen|].
  split; [|split].
  - intros date1 date2. now apply null_date_not_filtered.
  - intros date1 date2. cbv zeta.
    assert (F : date_filter date1 date2
                            (convert_coerce to_datetime_coerce df)
                = date_filter date1 date2 (before ++ after)).
    { rewrite E. now apply date_filter_skip_null. }
    unfold analyse. rewrite F. repeat split.
  - intros choice1 choice2. rewrite E. now apply date_inputs_skip_null.
Qed.

Hypothesis to_datetime_length :
  forall col, List.length (to_datetime_coerce col) = List.length col.

Lemma convert_coerce_length (df : list RawRow) :
  List.length (convert_coerce to_datetime_coerce df) = List.length df.
Proof.
  apply assign_Date_length.
  now rewrite to_datetime_length, length_map.
Qed.

(** C6, as the code has it.  On the Spending-Analysis page the
    conversion of the dates drops no row: the table keeps its length
    and each row its place and its other cells.  A row whose date cell
    fails to parse is kept with a null date, and no window keeps it in
    the filtered table.  The conversion does not abort, but the page
    does stop, at the date inputs, exactly when no row of the table has
    a date after the conversion; otherwise it analyses the whole
    converted table for the chosen dates. *)
Theorem unparsed_date_row_kept_with_null_date (df : list RawRow) :
  List.length (convert_coerce to_datetime_coerce df) = List.length df
  /\ (forall i r, nth_error df i = Some r ->
        exists d, nth_error (convert_coerce to_datetime_coerce df) i
                  = Some (with_date r d))
  /\ (forall i, date_fails to_datetime_coerce df i ->
        exists r,
          nth_error df i = Some r
          /\ nth_error (convert_coerce to_datetime_coerce df) i
             = Some (with_date r None)
          /\ forall date1 date2,
               ~ In (with_date r None)
                    (date_filter date1 date2
                                 (convert_coerce to_datetime_coerce df)))
  /\ (forall choice1 choice2, df <> [] ->
        (page to_datetime_coerce choice1 choice2 (Some df) = Failed
         <-> forall r, In r (convert_coerce to_datetime_coerce df) ->
                       Date r = None)
        /\ (page to_datetime_coerce choice1 choice2 (Some df) = Failed
            \/ exists date1 date2,
                 page to_datetime_coerce choice1 choice2 (Some df)
                 = Analysed (convert_coerce to_datetime_coerce df)
                            (analyse date1 date2
                               (convert_coerce to_datetime_coerce df)))).
Proof.
  split; [apply convert_coerce_length|]. split; [|split].
  - intros i r Hr.
    destruct (nth_error (to_datetime_coerce (map raw_Date df)) i)
      as [d|] eqn:Hd.
    + exists d. now apply assign_Date_nth.
    + exfalso. apply nth_error_None in Hd.
      rewrite to_datetime_length, length_map in Hd.
      assert (Hi : (i < List.length df)%nat).
      { apply nth_error_Some. congruence. }
      lia.
  - intros i H. destruct (failed_row_converted df i H) as (r & Hr & Hnth).
    exists r. split; [exact Hr|]. split; [exact Hnth|].
    intros date1 date2. now apply null_date_not_filtered.
  - intros choice1 choice2 Hne.
    destruct df as [|r rest]; [contradiction|].
    unfold page.
    pose proof (date_inputs_fail choice1 choice2
                  (convert_coerce to_datetime_coerce (r :: rest))) as F.
    destruct (date_inputs choice1 choice2
                (convert_coerce to_datetime_coerce (r :: rest)))
      as [date1 date2|].
    + split.
      * split; [discriminate|]. intros H. apply F in H. discriminate.
      * right. now exists date1, date2.
    + split.
      * split; [intros _; now apply F|reflexivity].
      * now left.
Qed.
End DateFacts.

(** C6, the claim as written fails.  With a good and a bad date the
    converted table still has both rows, the bad one with a null date;
    and on a table whose only row has a bad date the page stops at the
    date inputs. *)
Lemma unparsed_row_kept_and_page_fails :
  Dates.convert_coerce Sample.to_datetime_coerce
                       [Sample.good_date_row; Sample.bad_date_row]
  = [Table.with_date Sample.good_date_row
                     (Some (Calendar.midnight 2024 1 5));
     Table.with_date Sample.bad_date_row None]
  /\ Dates.date_fails Sample.to_datetime_coerce
                      [Sample.good_date_row; Sample.bad_date_row] 1
  /\ SpendingPage.page Sample.to_datetime_coerce None None
                       (Some [Sample.bad_date_row])
     = SpendingPage.Failed.
Proof.
  split; [reflexivity|]. split; [|reflexivity].
  exists Sample.bad_date_row, "not a date"%string.
  split; [reflexivity|]. split; reflexivity.
Qed.

Lemma sample_date_fails :
  Dates.date_fails Sample.to_datetime_coerce
                   [Sample.good_date_row; Sample.bad_date_row] 1.
Proof.
  exists Sample.bad_date_row, "not a date"%string.
  split; [reflexivity|]. split; reflexivity.
Qed.

Lemma sample_to_datetime_length (col : list (option string)) :
  List.length (Sample.to_datetime_coerce col) = List.length col.
Proof. apply length_map. Qed.

Lemma unparsed_date_row_kept_with_null_date_witness :
  (forall col, List.length (Sample.to_datetime_coerce col) = List.length col)
  /\ List.length (Dates.convert_coerce
                    Sample.to_datetime_coerce
                    [Sample.good_date_row; Sample.bad_date_row])
     = 2%nat
  /\ [Sample.bad_date_row] <> []
  /\ (SpendingPage.page Sample.to_datetime_coerce None None
                        (Some [Sample.bad_date_row])
      = SpendingPage.Failed
      <-> forall r, In r (Dates.convert_coerce Sample.to_datetime_coerce
                                               [Sample.bad_date_row]) ->
                    Table.Date r = None).
Proof.
  assert (Hne : [Sample.bad_date_row] <> []) by discriminate.
  split; [exact sample_to_datetime_length|]. split.
  - exact (proj1 (unparsed_date_row_kept_with_null_date
                    Sample.to_datetime_coerce sample_to_datetime_length
                    [Sample.good_date_row; Sample.bad_date_row])).
  - split; [exact Hne|].
    exact (proj1 (proj2 (proj2 (proj2
             (unparsed_date_row_kept_with_null_date
                Sample.to_datetime_coerce sample_to_datetime_length
                [Sample.bad_date_row]))) None None Hne)).
Defined.

Lemma failed_date_row_contributes_nothing_witness :
  Dates.date_fails Sample.to_datetime_coerce
                   [Sample.good_date_row; Sample.bad_date_row] 1
  /\ exists raw before after,
       nth_error [Sample.good_date_row; Sample.bad_date_row] 1 = Some raw
       /\ Dates.convert_coerce Sample.to_datetime_coerce
                               [Sample.good_date_row; Sample.bad_date_row]
          = before ++ Table.with_date raw None :: after
       /\ forall date1 date2,
            ~ In (Table.with_date raw None)
                 (Page.date_filter
                    date1 date2
                    (Dates.convert_coerce
                       Sample.to_datetime_coerce
                       [Sample.good_date_row; Sample.bad_date_row])).
Proof.
  split; [exact sample_date_fails|].
  destruct (failed_date_row_contributes_nothing
              Sample.to_datetime_coerce
              [Sample.good_date_row; Sample.bad_date_row] 1
              sample_date_fails)
    as (raw & before & after & H1 & H2 & _ & H3 & _).
  exists raw, before, after.
  split; [exact H1|]. split; [exact H2|exact H3].
Defined.

(* ================================================================== *)
(** * Grouping, merging and sorting *)

Section KeyedFacts.
Import Pandas.
Context {K : Type}.
Variable eqb : K -> K -> bool.
Hypothesis eqb_eq : forall x y, eqb x y = true <-> x = y.

Lemma existsb_eqb_In (x : K) (l : list K) :
  existsb (eqb x) l = true <-> In x l.
Proof.
  rewrite existsb_exists. split.
  - intros (y & Hy & E). apply eqb_eq in E. now subst.
  - intros H. exists x. split; [assumption|now apply eqb_eq].
Qed.

Lemma drop_duplicates_from_In (seen l : list K) (x : K) :
  In x (drop_duplicates_from eqb seen l) <-> In x l /\ ~ In x seen.
Proof.
  revert seen. induction l as [|y l IH]; intros seen; simpl.
  - tauto.
  - destruct (existsb (eqb y) seen) eqn:E.
    + apply existsb_eqb_In in E. rewrite IH. split.
      * intros [H1 H2]. auto.
      * intros [[->|H1] H2]; [contradiction|auto].
    + assert (Hy : ~ In y seen).
      { rewrite <- existsb_eqb_In, E. discriminate. }
      simpl. rewrite IH. simpl. split.
      * intros [->|[H1 H2]]; [auto|]. split; [auto|].
        intros H3. apply H2. auto.
      * intros [[->|H1] H2]; [auto|].
        destruct (eqb y x) eqn:Eyx.
        -- apply eqb_eq in Eyx. auto.
        -- right. split; [assumption|]. intros [->|H3]; [|contradiction].
           assert (eqb x x = true) by now apply eqb_eq. congruence.
Qed.

Lemma drop_duplicates_from_NoDup (seen l : list K) :
  NoDup (drop_duplicates_from eqb seen l).
Proof.
  revert seen. induction l as [|y l IH]; intros seen; simpl.
  - constructor.
  - destruct (existsb (eqb y) seen); [apply IH|].
    constructor; [|apply IH].
    rewrite drop_duplicates_from_In. intros [_ H]. apply H. now left.
Qed.

Lemma drop_duplicates_In (l : list K) (x : K) :
  In x (drop_duplicates eqb l) <-> In x l.
Proof.
  unfold drop_duplicates. rewrite drop_duplicates_from_In. simpl. tauto.
Qed.

Lemma drop_duplicates_NoDup (l : list K) : NoDup (drop_duplicates eqb l).
Proof. apply drop_duplicates_from_NoDup. Qed.

Variable leb : K -> K -> bool.

Lemma insert_sorted_Permutation (x : K) (l : list K) :
  Permutation (insert_sorted leb x l) (x :: l).
Proof.
  induction l as [|y l IH]; simpl; [reflexivity|].
  destruct (leb x y); [reflexivity|].
  rewrite IH. apply perm_swap.
Qed.

Lemma sort_Permutation (l : list K) : Permutation (sort leb l) l.
Proof.
  induction l as [|x l IH]; simpl; [reflexivity|].
  rewrite insert_sorted_Permutation. now constructor.
Qed.

Section Groups.
Context {A : Type}.
Variable key : A -> option K.
Variable val : A -> Z.

Lemma has_key_iff (k : K) (r : A) :
  has_key eqb key k r = true <-> key r = Some k.
Proof.
  unfold has_key. destruct (key r) as [k'|].
  - rewrite eqb_eq. split; congruence.
  - split; discriminate.
Qed.

Lemma group_keys_In (df : list A) (k : K) :
  In k (group_keys eqb leb key df)
  <-> exists r, In r df /\ key r = Some k.
Proof.
  unfold group_keys. split.
  - intros H. apply (Permutation_in _ (sort_Permutation _)) in H.
    apply (proj1 (drop_duplicates_In _ _)) in H.
    apply (proj1 (in_flat_map _ _ _)) in H.
    destruct H as (r & Hr & H). exists r. split; [assumption|].
    destruct (key r); simpl in H; [|contradiction].
    destruct H as [->|[]]. reflexivity.
  - intros (r & Hr & E).
    apply (Permutation_in _ (Permutation_sym (sort_Permutation _))).
    apply (proj2 (drop_duplicates_In _ _)).
    apply (proj2 (in_flat_map _ _ _)). exists r.
    split; [assumption|]. rewrite E. now left.
Qed.

Lemma group_keys_NoDup (df : list A) : NoDup (group_keys eqb leb key df).
Proof.
  unfold group_keys.
  apply (Permutation_NoDup (Permutation_sym (sort_Permutation _))).
  apply drop_duplicates_NoDup.
Qed.

Lemma groupby_sum_keys (df : list A) :
  map fst (groupby_sum eqb leb key val df) = group_keys eqb leb key df.
Proof.
  unfold groupby_sum. rewrite map_map. simpl. apply map_id.
Qed.

Lemma groupby_sum_In (df : list A) (k : K) (v : Z) :
  In (k, v) (groupby_sum eqb leb key val df)
  <-> (exists r, In r df /\ key r = Some k)
      /\ v = sum (map val (filter (has_key eqb key k) df)).
Proof.
  rewrite <- group_keys_In. unfold groupby_sum, boolean_index.
  rewrite in_map_iff. split.
  - intros (k' & E & H). inversion E; subst. auto.
  - intros (H & ->). now exists k.
Qed.

Lemma filter_has_key_nonempty (df : list A) (k : K) :
  filter (has_key eqb key k) df <> []
  -> exists r, In r df /\ key r = Some k.
Proof.
  destruct (filter (has_key eqb key k) df) as [|r l] eqn:E;
    [congruence|].
  intros _. assert (H : In r (filter (has_key eqb key k) df)).
  { rewrite E. now left. }
  apply filter_In in H. destruct H as [H1 H2]. exists r.
  split; [assumption|now apply has_key_iff].
Qed.
End Groups.

Section Merge.
Context {A : Type}.
Variable key : A -> option K.


End Merge.
End KeyedFacts.

Lemma NoDup_map_fst_filter {A B : Type} (p : A * B -> bool)
      (l : list (A * B)) :
  NoDup (map fst l) -> NoDup (map fst (filter p l)).
Proof.
  induction l as [|x l IH]; simpl; [auto|].
  intros H. inversion H as [|? ? Hx Hl]; subst.
  destruct (p x); simpl; [|auto].
  constructor; [|auto].
  intros Hin. apply Hx. apply in_map_iff in Hin.
  destruct Hin as (y & E & Hy). apply filter_In in Hy.
  rewrite <- E. apply in_map. tauto.
Qed.

Lemma sum_nil_map {A : Type} (f : A -> Z) : Pandas.sum (map f []) = 0.
Proof. reflexivity. Qed.

(* ================================================================== *)
(** * The expense breakdown by payee *)

Section BreakdownFacts.
Import Table Pandas Page Overview.

Lemma df_outflow_skips (before after : list Row) (r : Row) :
  ~ In (TranType r) cash_outflow_trantypes ->
  df_outflow (before ++ r :: after) = df_outflow (before ++ after).
Proof.
  intros H. unfold df_outflow, boolean_index. rewrite !filter_app.
  cbn [filter].
  destruct (isin (TranType r) cash_outflow_trantypes) eqn:E;
    [|reflexivity].
  exfalso. now apply H, isin_In.
Qed.

Lemma payee_rows (payee : string) (df_filtered : list Row) :
  filter (has_key String.eqb Payee payee) (df_outflow df_filtered)
  = filter (enters_payee_sum payee) df_filtered.
Proof. unfold df_outflow, boolean_index. apply filter_filter. Qed.

(** C3, as the code has it.  The breakdown groups by payee the rows of
    the filtered table whose type is outflow-eligible, whatever the
    sign of their amount, and sums their amounts; a payee is listed,
    once, exactly when that sum is below zero; a row whose type is not
    outflow-eligible changes nothing. *)
Theorem expense_breakdown_nets_eligible_rows (df_filtered : list Row) :
  (forall payee total,
      In (payee, total) (expense_breakdown df_filtered)
      <-> total = sum (map Amount
                           (filter (enters_payee_sum payee) df_filtered))
          /\ total < 0)
  /\ NoDup (map fst (expense_breakdown df_filtered))
  /\ (forall before after r,
        df_filtered = before ++ r :: after ->
        ~ In (TranType r) cash_outflow_trantypes ->
        expense_breakdown df_filtered = expense_breakdown (before ++ after)).
Proof.
  split; [|split].
  - intros payee total. unfold expense_breakdown, boolean_index.
    rewrite filter_In. simpl. rewrite Z.ltb_lt.
    unfold payee_summary.
    rewrite (groupby_sum_In String.eqb String.eqb_eq), payee_rows.
    split; [tauto|]. intros [E Hneg]. split; [|assumption].
    split; [|assumption].
    rewrite <- payee_rows in E.
    apply (filter_has_key_nonempty String.eqb String.eqb_eq).
    intros Hnil. rewrite Hnil in E. simpl in E. lia.
  - unfold expense_breakdown, boolean_index.
    apply NoDup_map_fst_filter. unfold payee_summary.
    rewrite groupby_sum_keys.
    apply (group_keys_NoDup String.eqb String.eqb_eq).
  - intros before after r -> H.
    unfold expense_breakdown, payee_summary.
    now rewrite df_outflow_skips.
Qed.
End BreakdownFacts.

(* An interest credit of 30.00 from a payee is not an Outflow row, yet it
   is netted against the 100.00 the payee was paid: the breakdown is not
   the sum over the Outflow rows. *)
Lemma breakdown_nets_positive_rows :
  Overview.expense_breakdown Sample.january = [("Bank"%string, -7000)]
  /\ Page.classify Sample.interest_earned = Page.Inflow
  /\ Spec.outflow_sum_by_payee "Bank" Sample.january = -10000
  /\ ~ (forall payee total,
           In (payee, total) (Overview.expense_breakdown Sample.january) ->
           total = Spec.outflow_sum_by_payee payee Sample.january).
Proof.
  split; [reflexivity|]. split; [reflexivity|]. split; [reflexivity|].
  intros H. specialize (H "Bank"%string (-7000) (or_introl eq_refl)).
  discriminate H.
Qed.

Lemma expense_breakdown_nets_eligible_rows_witness :
  -7000 = Pandas.sum (map Table.Amount
                          (filter (Overview.enters_payee_sum "Bank")
                                  Sample.january))
  /\ -7000 < 0
  /\ In ("Bank"%string, -7000) (Overview.expense_breakdown Sample.january).
Proof.
  split; [reflexivity|]. split; [reflexivity|].
  apply (proj1 (expense_breakdown_nets_eligible_rows Sample.january)).
  split; reflexivity.
Defined.

(* ================================================================== *)
(** * Calendar names and the categorical order *)

Section CalendarFacts.
Import Calendar.

Lemma month_of_day_range (n : Z) : 1 <= month_of_day n <= 12.
Proof.
  unfold month_of_day. cbv zeta.
  set (doe := (n + 719468) mod 146097).
  assert (Hdoe : 0 <= doe < 146097) by (apply Z.mod_pos_bound; lia).
  clearbody doe.
  set (yoe := (doe - doe / 1460 + doe / 36524 - doe / 146096) / 365).
  assert (Hyoe : 0 <= yoe <= 399).
  { unfold yoe. Z.to_euclidean_division_equations. lia. }
  set (doy := doe - (365 * yoe + yoe / 4 - yoe / 100)).
  assert (Hdoy : 0 <= doy <= 365).
  { unfold doy, yoe. Z.to_euclidean_division_equations. lia. }
  clearbody doy.
  destruct ((5 * doy + 2) / 153 <? 10) eqn:E;
    [apply Z.ltb_lt in E|apply Z.ltb_ge in E];
    Z.to_euclidean_division_equations; lia.
Qed.

Lemma month_name_in_order (ts : Timestamp) : In (month_name ts) month_order.
Proof.
  unfold month_name. apply nth_In.
  pose proof (month_of_day_range (day_number ts)).
  change (List.length month_order) with 12%nat. lia.
Qed.

Lemma day_name_in_order (ts : Timestamp) : In (day_name ts) days_order.
Proof.
  unfold day_name, weekday_of_day. apply nth_In.
  pose proof (Z.mod_pos_bound (day_number ts + 3) 7 eq_refl).
  change (List.length days_order) with 7%nat. lia.
Qed.

Example new_year_2024 :
  days_from_civil 2024 1 1 = 19723
  /\ month_name (midnight 2024 1 1) = "January"%string
  /\ day_name (midnight 2024 1 1) = "Monday"%string
  /\ month_name (midnight 2024 2 29) = "February"%string
  /\ day_name (midnight 2024 2 29) = "Thursday"%string
  /\ month_name (midnight 1969 12 31) = "December"%string
  /\ day_name (midnight 1969 12 31) = "Wednesday"%string.
Proof. repeat split. Qed.
End CalendarFacts.

Section CategoricalFacts.
Import Pandas.

Lemma category_code_nth (categories : list string) (v : string) (i : nat) :
  category_code categories v = Some i -> nth_error categories i = Some v.
Proof.
  revert i. induction categories as [|c cats IH]; simpl; [discriminate|].
  intros i. destruct (String.eqb c v) eqn:E.
  - apply String.eqb_eq in E. intros [= <-]. now subst.
  - destruct (category_code cats v) as [j|]; simpl; [|discriminate].
    intros [= <-]. simpl. now apply IH.
Qed.

Lemma category_code_In (categories : list string) (v : string) :
  In v categories -> exists i, category_code categories v = Some i.
Proof.
  induction categories as [|c cats IH]; simpl; [intros []|].
  intros H. destruct (String.eqb c v) eqn:E; [now exists 0%nat|].
  destruct H as [->|H]; [rewrite String.eqb_refl in E; discriminate|].
  destruct (IH H) as [i ->]. now exists (S i).
Qed.

Lemma code_leb_total (a b : option nat) :
  code_leb a b = true \/ code_leb b a = true.
Proof.
  destruct a as [i|], b as [j|]; simpl; auto.
  destruct (Nat.leb_spec i j); [auto|right].
  apply Nat.leb_le. lia.
Qed.

Lemma code_leb_trans (a b c : option nat) :
  code_leb a b = true -> code_leb b c = true -> code_leb a c = true.
Proof.
  destruct a as [i|], b as [j|], c as [k|]; simpl; try congruence.
  rewrite !Nat.leb_le. lia.
Qed.
End CategoricalFacts.

Section SortFacts.
Import Pandas.
Context {K : Type}.
Variable leb : K -> K -> bool.
Hypothesis leb_total : forall x y, leb x y = true \/ leb y x = true.
Hypothesis leb_trans :
  forall x y z, leb x y = true -> leb y z = true -> leb x z = true.

Lemma insert_sorted_ordered (x : K) (l : list K) :
  sorted_by leb l -> sorted_by leb (insert_sorted leb x l).
Proof.
  unfold sorted_by. induction 1 as [|y l Hl IH Hy]; simpl.
  - repeat constructor.
  - destruct (leb x y) eqn:E.
    + constructor; [now constructor|].
      constructor; [exact E|].
      revert Hy. apply Forall_impl. intros z Hz.
      now apply leb_trans with y.
    + constructor; [exact IH|].
      apply (Permutation_Forall
               (Permutation_sym (insert_sorted_Permutation leb x l))).
      constructor; [|exact Hy].
      destruct (leb_total x y) as [H|H]; [congruence|exact H].
Qed.

Lemma sort_ordered (l : list K) : sorted_by leb (sort leb l).
Proof.
  induction l as [|x l IH]; simpl; [constructor|].
  now apply insert_sorted_ordered.
Qed.
End SortFacts.

(* ================================================================== *)
(** * Monthly and weekday spending *)

Section BucketFacts.
Import Calendar Table Pandas Page Spending.
Variable categories : list string.
Variable bucket : Row -> option string.
Hypothesis bucket_in_categories :
  forall r name, bucket r = Some name -> In name categories.

Lemma absolute_In (l : list (string * Z)) (name : string) (total : Z) :
  In (name, total) (absolute l)
  <-> exists v, In (name, v) l /\ total = Z.abs v.
Proof.
  unfold absolute. rewrite in_map_iff. split.
  - intros ([n v] & E & H). simpl in E. inversion E; subst. now exists v.
  - intros (v & H & ->). now exists (name, v).
Qed.

Lemma absolute_keys (l : list (string * Z)) :
  map fst (absolute l) = map fst l.
Proof. unfold absolute. rewrite map_map. reflexivity. Qed.

Lemma sorted_codes_precede (l : list (string * Z)) :
  sorted_by (by_code categories) l ->
  NoDup (map fst l) ->
  (forall x, In x l -> In (fst x) categories) ->
  StronglySorted (precedes categories) (map fst l).
Proof.
  unfold sorted_by.
  induction 1 as [|x l Hl IH Hx]; simpl; intros Hnd Hin; [constructor|].
  inversion Hnd as [|? ? Hfresh Hnd']; subst.
  constructor; [apply IH; auto|].
  apply Forall_forall. intros name Hname.
  apply in_map_iff in Hname. destruct Hname as (y & <- & Hy).
  rewrite Forall_forall in Hx. specialize (Hx y Hy).
  destruct (category_code_In categories (fst x)) as [i Hi]; [auto|].
  destruct (category_code_In categories (fst y)) as [j Hj]; [auto|].
  exists i, j. split; [assumption|]. split; [assumption|].
  unfold by_code in Hx. rewrite Hi, Hj in Hx. simpl in Hx.
  apply Nat.leb_le in Hx.
  assert (i <> j); [|lia].
  intros ->. apply Hfresh.
  apply category_code_nth in Hi. apply category_code_nth in Hj.
  assert (E : fst x = fst y) by congruence.
  rewrite E. now apply in_map.
Qed.

Lemma bucket_rows (name : string) (df_filtered : list Row) :
  filter (has_key String.eqb bucket name) (df_outflow df_filtered)
  = filter (enters_bucket_sum bucket name) df_filtered.
Proof. unfold df_outflow, boolean_index. apply filter_filter. Qed.

Lemma bucket_totals (df_filtered : list Row) :
  let totals :=
    absolute
      (sort_values_categorical categories
         (groupby_sum String.eqb String.leb bucket Amount
                      (df_outflow df_filtered))) in
  (forall name total,
      In (name, total) totals
      <-> (exists r, In r df_filtered
                     /\ enters_bucket_sum bucket name r = true)
          /\ total = Z.abs (sum (map Amount
                                     (filter (enters_bucket_sum bucket name)
                                             df_filtered))))
  /\ StronglySorted (precedes categories) (map fst totals).
Proof.
  cbv zeta. unfold sort_values_categorical.
  set (groups := groupby_sum String.eqb String.leb bucket Amount
                             (df_outflow df_filtered)).
  assert (Hperm : Permutation (sort (by_code categories) groups) groups)
    by apply sort_Permutation.
  assert (Hgroup : forall name v,
             In (name, v) groups
             <-> (exists r, In r df_filtered
                            /\ enters_bucket_sum bucket name r = true)
                 /\ v = sum (map Amount
                                 (filter (enters_bucket_sum bucket name)
                                         df_filtered))).
  { intros name v. unfold groups.
    rewrite (groupby_sum_In String.eqb String.eqb_eq), bucket_rows.
    assert (Hex : (exists r, In r (df_outflow df_filtered)
                             /\ bucket r = Some name)
                  <-> (exists r, In r df_filtered
                                 /\ enters_bucket_sum bucket name r = true)).
    { unfold df_outflow, boolean_index, enters_bucket_sum.
      split; intros (r & H1 & H2); exists r.
      - apply filter_In in H1. destruct H1 as [H1 H3]. split; [assumption|].
        rewrite H3. simpl.
        now apply (has_key_iff String.eqb String.eqb_eq).
      - apply andb_true_iff in H2. destruct H2 as [H2 H3].
        split; [apply filter_In; auto|].
        now apply (has_key_iff String.eqb String.eqb_eq) in H3. }
    now rewrite Hex. }
  split.
  - intros name total. rewrite absolute_In. split.
    + intros (v & Hv & ->).
      apply (Permutation_in _ Hperm), Hgroup in Hv.
      destruct Hv as [Hex ->]. auto.
    + intros [Hex ->]. eexists. split; [|reflexivity].
      apply (Permutation_in _ (Permutation_sym Hperm)), Hgroup. auto.
  - rewrite absolute_keys. apply sorted_codes_precede.
    + apply sort_ordered.
      * intros x y. apply code_leb_total.
      * intros x y z. apply code_leb_trans.
    + apply (Permutation_NoDup
               (Permutation_map fst (Permutation_sym Hperm))).
      unfold groups. rewrite groupby_sum_keys.
      apply (group_keys_NoDup String.eqb String.eqb_eq).
    + intros [name v] Hx. simpl.
      apply (Permutation_in _ Hperm), Hgroup in Hx.
      destruct Hx as [(r & _ & Hr) _].
      unfold enters_bucket_sum in Hr. apply andb_true_iff in Hr.
      destruct Hr as [_ Hr].
      apply (has_key_iff String.eqb String.eqb_eq) in Hr.
      now apply bucket_in_categories with r.
Qed.
End BucketFacts.

Section SpendingFacts.
Import Calendar Table Pandas Page Spending.

Lemma Month_in_order (r : Row) (name : string) :
  Month r = Some name -> In name month_order.
Proof.
  unfold Month. destruct (Date r); simpl; [|discriminate].
  intros [= <-]. apply month_name_in_order.
Qed.

Lemma Day_of_Week_in_order (r : Row) (name : string) :
  Day_of_Week r = Some name -> In name days_order.
Proof.
  unfold Day_of_Week. destruct (Date r); simpl; [|discriminate].
  intros [= <-]. apply day_name_in_order.
Qed.

(** C5, as the code has it.  [monthly_spending] has an entry for a month
    name exactly when the filtered table has a row of an
    outflow-eligible type dated in that month, whatever the sign of its
    amount, and the entry is the absolute value of the sum of the
    amounts of those rows; [weekly_spending] is the same per weekday
    name.  The entries come in calendar order, January to December and
    Monday to Sunday, one per name, and a month or weekday without such
    a row has no entry. *)
Theorem spending_buckets_net_eligible_rows (df_filtered : list Row) :
  ((forall name total,
       In (name, total) (monthly_spending df_filtered)
       <-> (exists r, In r df_filtered
                      /\ enters_bucket_sum Month name r = true)
           /\ total = Z.abs (sum (map Amount
                                      (filter (enters_bucket_sum Month name)
                                              df_filtered))))
   /\ StronglySorted (precedes month_order)
                     (map fst (monthly_spending df_filtered)))
  /\ ((forall name total,
          In (name, total) (weekly_spending df_filtered)
          <-> (exists r, In r df_filtered
                         /\ enters_bucket_sum Day_of_Week name r = true)
              /\ total = Z.abs (sum (map Amount
                                         (filter (enters_bucket_sum
                                                    Day_of_Week name)
                                                 df_filtered))))
      /\ StronglySorted (precedes days_order)
                        (map fst (weekly_spending df_filtered))).
Proof.
  split.
  - apply (bucket_totals month_order Month Month_in_order).
  - apply (bucket_totals days_order Day_of_Week Day_of_Week_in_order).
Qed.
End SpendingFacts.

(* The January total is not the sum of the magnitudes of January's
   Outflow rows (100.00) but the magnitude of the net sum of its
   outflow-eligible rows (70.00), and a month with an interest credit and
   no Outflow row still has an entry. *)
Lemma monthly_total_is_net_not_magnitude :
  Spending.monthly_spending Sample.january = [("January"%string, 7000)]
  /\ Spec.outflow_magnitude Spending.Month "January" Sample.january = 10000
  /\ filter Page.is_outflow [Sample.interest_earned] = []
  /\ Spending.monthly_spending [Sample.interest_earned]
     = [("January"%string, 3000)]
  /\ ~ (forall name total,
           In (name, total) (Spending.monthly_spending Sample.january) ->
           total = Spec.outflow_magnitude Spending.Month name Sample.january).
Proof.
  split; [reflexivity|]. split; [reflexivity|]. split; [reflexivity|].
  split; [reflexivity|].
  intros H. specialize (H "January"%string 7000 (or_introl eq_refl)).
  discriminate H.
Qed.

Lemma spending_buckets_net_eligible_rows_witness :
  (exists r, In r Sample.january
             /\ Spending.enters_bucket_sum Spending.Month "January" r = true)
  /\ In ("January"%string, 7000) (Spending.monthly_spending Sample.january).
Proof.
  assert (H : exists r, In r Sample.january
                        /\ Spending.enters_bucket_sum Spending.Month
                                                      "January" r = true).
  { exists Sample.interest_paid. split; [now left|reflexivity]. }
  split; [exact H|].
  apply (proj1 (proj1 (spending_buckets_net_eligible_rows Sample.january))).
  split; [exact H|reflexivity].
Defined.

(* ================================================================== *)
(** * The daily cash-flow frame *)

Section FoundFacts.
Import Pandas.
Context {K A : Type}.
Variable eqb : K -> K -> bool.
Hypothesis eqb_eq : forall x y, eqb x y = true <-> x = y.
Variable key : A -> option K.


End FoundFacts.

Section RollingFacts.
Import Pandas.




End RollingFacts.

Section CashFlowFacts.
Import Calendar Table Pandas Page Overview.



(** The daily sums come out in date order. *)
Lemma daily_keys_sorted (df : list Row) :
  sorted_by Z.leb (map fst (groupby_sum Z.eqb Z.leb Date Amount df)).
Proof.
  rewrite groupby_sum_keys. unfold group_keys. apply sort_ordered.
  - intros x y. rewrite !Z.leb_le. lia.
  - intros x y z. rewrite !Z.leb_le. lia.
Qed.


End CashFlowFacts.

Section CashFlowTheorem.
Import Calendar Table Pandas Page Overview.



End CashFlowTheorem.


(* ================================================================== *)
(** * Windows: empty, nested and default ones *)

Section WindowFacts.
Import Calendar Table Pandas Page Defaults.

Lemma to_datetime_date_le (a b : date) :
  to_datetime_date a <= to_datetime_date b <-> a <= b.
Proof. unfold to_datetime_date, ns_per_day. lia. Qed.

(** X3.  A window whose end lies before its start keeps no row. *)
Theorem date_filter_reversed_window (date1 date2 : date) (df : list Row) :
  date2 < date1 -> date_filter date1 date2 df = [].
Proof.
  intros H. unfold date_filter, boolean_index. apply filter_nil_iff.
  intros r _. apply not_true_is_false. intros Hm.
  apply mask_in_window in Hm. destruct Hm as (ts & _ & H1 & H2).
  unfold to_datetime_date, ns_per_day in H1, H2. lia.
Qed.

Lemma date_filter_reversed_window_witness :
  19728 < 19729 /\ date_filter 19729 19728 Sample.january = [].
Proof.
  assert (H : 19728 < 19729) by reflexivity.
  split; [exact H|].
  exact (date_filter_reversed_window 19729 19728 Sample.january H).
Defined.

(** X4.  Filtering with one window and then with another is filtering
    once with their intersection, and the date filter commutes with
    the selection of the outflow-type rows. *)
Theorem date_filter_composes (a b c d : date) (df : list Row) :
  date_filter a b (date_filter c d df)
  = date_filter (Z.max a c) (Z.min b d) df
  /\ df_outflow (date_filter a b df) = date_filter a b (df_outflow df).
Proof.
  unfold date_filter, df_outflow, boolean_index. rewrite !filter_filter.
  split; apply filter_ext; intros r.
  - unfold ge_cell, le_cell, to_datetime_date, ns_per_day.
    destruct (Date r) as [ts|]; [|reflexivity].
    apply eq_true_iff_eq. rewrite !andb_true_iff, !Z.leb_le. lia.
  - apply andb_comm.
Qed.
End WindowFacts.

Section DefaultWindowFacts.
Import Calendar Table Pandas Page Defaults.

Lemma column_min_spec (col : list (option Z)) :
  match column_min col with
  | Some lo => In (Some lo) col /\ forall x, In (Some x) col -> lo <= x
  | None => forall x, ~ In (Some x) col
  end.
Proof.
  induction col as [|[x|] col IH]; simpl.
  - intros x [].
  - destruct (column_min col) as [y|].
    + destruct IH as [Hin Hle]. split.
      * destruct (Z.min_spec x y) as [[_ ->]|[_ ->]]; auto.
      * intros z [[= <-]|Hz]; [lia|]. specialize (Hle z Hz). lia.
    + split; [now left|].
      intros z [[= <-]|Hz]; [lia|]. now apply IH in Hz.
  - destruct (column_min col) as [y|].
    + destruct IH as [Hin Hle]. split; [now right|].
      intros z [Hz|Hz]; [discriminate|auto].
    + intros z [Hz|Hz]; [discriminate|]. now apply IH in Hz.
Qed.

Lemma column_max_spec (col : list (option Z)) :
  match column_max col with
  | Some hi => In (Some hi) col /\ forall x, In (Some x) col -> x <= hi
  | None => forall x, ~ In (Some x) col
  end.
Proof.
  induction col as [|[x|] col IH]; simpl.
  - intros x [].
  - destruct (column_max col) as [y|].
    + destruct IH as [Hin Hle]. split.
      * destruct (Z.max_spec x y) as [[_ ->]|[_ ->]]; auto.
      * intros z [[= <-]|Hz]; [lia|]. specialize (Hle z Hz). lia.
    + split; [now left|].
      intros z [[= <-]|Hz]; [lia|]. now apply IH in Hz.
  - destruct (column_max col) as [y|].
    + destruct IH as [Hin Hle]. split; [now right|].
      intros z [Hz|Hz]; [discriminate|auto].
    + intros z [Hz|Hz]; [discriminate|]. now apply IH in Hz.
Qed.

Lemma dated_cell (df : list Row) (ts : Timestamp) :
  In (Some ts) (map Date df) <-> exists r, In r df /\ Date r = Some ts.
Proof.
  rewrite in_map_iff. split; intros (r & H1 & H2); exists r; auto.
Qed.

Lemma extreme_dates (df : list Row) :
  (forall lo, start_date df = Some lo ->
     (exists r, In r df /\ Date r = Some lo)
     /\ forall r ts, In r df -> Date r = Some ts -> lo <= ts)
  /\ (forall hi, end_date df = Some hi ->
        (exists r, In r df /\ Date r = Some hi)
        /\ forall r ts, In r df -> Date r = Some ts -> ts <= hi)
  /\ (start_date df = None <-> forall r, In r df -> Date r = None)
  /\ (end_date df = None <-> forall r, In r df -> Date r = None).
Proof.
  unfold start_date, end_date.
  pose proof (column_min_spec (map Date df)) as Hmin.
  pose proof (column_max_spec (map Date df)) as Hmax.
  assert (Hnone : (forall x, ~ In (Some x) (map Date df))
                  <-> forall r, In r df -> Date r = None).
  { split.
    - intros H r Hr. destruct (Date r) as [ts|] eqn:E; [|reflexivity].
      exfalso. apply (H ts), dated_cell. now exists r.
    - intros H x Hx. apply dated_cell in Hx. destruct Hx as (r & Hr & E).
      rewrite (H r Hr) in E. discriminate. }
  split; [|split; [|split]].
  - intros lo E. rewrite E in Hmin. destruct Hmin as [Hin Hle].
    split; [now apply dated_cell|].
    intros r ts Hr Hts. apply Hle, dated_cell. now exists r.
  - intros hi E. rewrite E in Hmax. destruct Hmax as [Hin Hle].
    split; [now apply dated_cell|].
    intros r ts Hr Hts. apply Hle, dated_cell. now exists r.
  - destruct (column_min (map Date df)) as [lo|].
    + split; [discriminate|]. intros H. exfalso.
      destruct Hmin as [Hin _]. now apply Hnone in Hin.
    + split; [intros _; now apply Hnone|reflexivity].
  - destruct (column_max (map Date df)) as [hi|].
    + split; [discriminate|]. intros H. exfalso.
      destruct Hmax as [Hin _]. now apply Hnone in Hin.
    + split; [intros _; now apply Hnone|reflexivity].
Qed.

(** X5.  The defaults of the two date inputs are the earliest and the
    latest date of the table, rows without a date being skipped: each
    is the date of some row and bounds the dates of all rows, and there
    are no defaults exactly when no row has a date. *)
Theorem default_dates_are_extremes (df : list Row) :
  (forall lo, start_date df = Some lo ->
     (exists r, In r df /\ Date r = Some lo)
     /\ forall r ts, In r df -> Date r = Some ts -> lo <= ts)
  /\ (forall hi, end_date df = Some hi ->
        (exists r, In r df /\ Date r = Some hi)
        /\ forall r ts, In r df -> Date r = Some ts -> ts <= hi)
  /\ (start_date df = None <-> forall r, In r df -> Date r = None)
  /\ (end_date df = None <-> forall r, In r df -> Date r = None).
Proof.
  destruct (extreme_dates df) as (Hlo & Hhi & Hnone1 & Hnone2).
  split; [exact Hlo|]. split; [exact Hhi|].
  split; [exact Hnone1|exact Hnone2].
Qed.

Lemma default_dates_are_extremes_witness :
  start_date Sample.january = Some (midnight 2024 1 5)
  /\ forall r ts, In r Sample.january -> Date r = Some ts ->
                  midnight 2024 1 5 <= ts.
Proof.
  assert (H : start_date Sample.january = Some (midnight 2024 1 5))
    by reflexivity.
  split; [exact H|].
  exact (proj2 (proj1 (default_dates_are_extremes Sample.january) _ H)).
Defined.

Lemma midnight_floor (ts : Timestamp) :
  to_datetime_date (day_number ts) <= ts
  /\ (at_midnight ts -> to_datetime_date (day_number ts) = ts)
  /\ (~ at_midnight ts -> to_datetime_date (day_number ts) < ts).
Proof.
  unfold to_datetime_date, day_number, at_midnight, ns_per_day.
  pose proof (Z.div_mod ts 86400000000000 ltac:(lia)).
  pose proof (Z.mod_pos_bound ts 86400000000000 ltac:(lia)).
  lia.
Qed.

(** With the default window, the start never excludes a row: a dated
    row is kept exactly when it is not later than midnight of the last
    day. *)
Lemma default_window_keeps (df : list Row) (date1 date2 : date) (r : Row) :
  default_window df = Some (date1, date2) ->
  (In r (date_filter date1 date2 df)
   <-> In r df /\ exists ts, Date r = Some ts
                             /\ ts <= to_datetime_date date2).
Proof.
  unfold default_window.
  destruct (start_date df) as [lo|] eqn:Elo; [|discriminate].
  destruct (end_date df) as [hi|] eqn:Ehi; [|discriminate].
  intros [= <- <-]. rewrite date_filter_In. unfold in_window.
  destruct (extreme_dates df) as (Hlo & _).
  destruct (Hlo lo Elo) as [_ Hle].
  split; intros [Hr (ts & E & H)]; (split; [assumption|]); exists ts;
    (split; [assumption|]); [lia|].
  split; [|assumption]. specialize (Hle r ts Hr E).
  unfold date_input. pose proof (midnight_floor lo). lia.
Qed.

(** X6.  When every date of the table is a plain day (midnight), the
    default window keeps exactly the rows that have a date. *)
Theorem default_window_keeps_dated_rows (df : list Row)
        (date1 date2 : date) :
  default_window df = Some (date1, date2) ->
  (forall r ts, In r df -> Date r = Some ts -> at_midnight ts) ->
  date_filter date1 date2 df = filter dated df.
Proof.
  intros Hw Hmid. pose proof Hw as Hw'. unfold default_window in Hw'.
  destruct (start_date df) as [lo|] eqn:Elo; [|discriminate].
  destruct (end_date df) as [hi|] eqn:Ehi; [|discriminate].
  injection Hw' as <- <-.
  destruct (extreme_dates df) as (Hlo & Hhi & _).
  destruct (Hlo lo Elo) as [_ Hge].
  destruct (Hhi hi Ehi) as [(rh & Hrh & Eh) Hle].
  unfold date_filter, boolean_index. apply filter_ext_in. intros r Hr.
  unfold dated, ge_cell, le_cell. destruct (Date r) as [ts|] eqn:E;
    [|reflexivity].
  apply andb_true_iff. rewrite !Z.leb_le. unfold date_input.
  pose proof (midnight_floor lo) as (Hfl & _).
  pose proof (midnight_floor hi) as (_ & Hfh & _).
  rewrite (Hfh (Hmid rh hi Hrh Eh)).
  specialize (Hge r ts Hr E). specialize (Hle r ts Hr E). lia.
Qed.

Lemma default_window_keeps_dated_rows_witness :
  default_window Sample.january = Some (19727, 19728)
  /\ (forall r ts, In r Sample.january -> Date r = Some ts ->
                   at_midnight ts)
  /\ date_filter 19727 19728 Sample.january = filter dated Sample.january.
Proof.
  assert (Hw : default_window Sample.january = Some (19727, 19728))
    by reflexivity.
  assert (Hm : forall r ts, In r Sample.january -> Date r = Some ts ->
                            at_midnight ts).
  { intros r ts [<-|[<-|[]]] [= <-]; reflexivity. }
  split; [exact Hw|]. split; [exact Hm|].
  exact (default_window_keeps_dated_rows Sample.january 19727 19728 Hw Hm).
Defined.

(** X7.  When the latest date of the table carries a time of day, the
    default window leaves out every row with that date: the end of the
    window is midnight of the last day. *)
Theorem default_window_drops_latest_rows (df : list Row)
        (date1 date2 : date) (hi : Timestamp) :
  default_window df = Some (date1, date2) ->
  end_date df = Some hi ->
  ~ at_midnight hi ->
  (exists r, In r df /\ Date r = Some hi)
  /\ forall r, Date r = Some hi -> ~ In r (date_filter date1 date2 df).
Proof.
  intros Hw Ehi Hnot.
  destruct (extreme_dates df) as (_ & Hhi & _).
  destruct (Hhi hi Ehi) as [Hex _]. split; [exact Hex|].
  intros r E Hin. apply (default_window_keeps df date1 date2 r Hw) in Hin.
  destruct Hin as (_ & ts & E' & Hle). rewrite E in E'.
  injection E' as <-. unfold default_window in Hw. rewrite Ehi in Hw.
  destruct (start_date df); [|discriminate]. injection Hw as _ <-.
  unfold date_input in Hle.
  pose proof (midnight_floor hi) as (_ & _ & Hlt). specialize (Hlt Hnot).
  lia.
Qed.

Lemma default_window_drops_latest_rows_witness :
  default_window Sample2.morning_and_afternoon = Some (19727, 19728)
  /\ end_date Sample2.morning_and_afternoon = Some Sample2.afternoon
  /\ ~ at_midnight Sample2.afternoon
  /\ exists r, In r Sample2.morning_and_afternoon
               /\ Date r = Some Sample2.afternoon.
Proof.
  assert (Hw : default_window Sample2.morning_and_afternoon
               = Some (19727, 19728)) by reflexivity.
  assert (He : end_date Sample2.morning_and_afternoon
               = Some Sample2.afternoon) by reflexivity.
  assert (Hn : ~ at_midnight Sample2.afternoon) by discriminate.
  split; [exact Hw|]. split; [exact He|]. split; [exact Hn|].
  exact (proj1 (default_window_drops_latest_rows
                  Sample2.morning_and_afternoon 19727 19728
                  Sample2.afternoon Hw He Hn)).
Defined.
End DefaultWindowFacts.

(* ================================================================== *)
(** * Bounds on what the charts receive *)

Section ChartFacts.
Import Calendar Table Pandas Page Overview Spending.






End ChartFacts.

(* ================================================================== *)
(** * The loader as a whole *)

Section CandidateFacts.
Import Py Table Trace Loader Candidates.
Variable File : Type.
Variable read_csv : ascii -> File -> option (list RawRow).
Variable read_lines : File -> Result (list string).

Lemma load_first_reading (f : File) :
  fst (spending_load File read_csv f)
  = first_reading File read_csv f delimiters
  /\ snd (fst (overview_load File read_csv read_lines f))
     = first_reading File read_csv f delimiters.
Proof.
  unfold spending_load, overview_load, determine_delimiter. simpl.
  destruct (lines <- read_lines f;; Balance.extract_balance lines);
    destruct (read_csv comma f); destruct (read_csv semicolon f);
    destruct (read_csv tab f); split; reflexivity.
Qed.

(** X13.  Both pages end with the same table: the first reading that
    succeeds among comma, semicolon and tab, in this order, whether or
    not the balance scan of the Overview page raised; they end without
    a table exactly when all three readings fail. *)
Theorem pages_read_first_candidate (f : File) :
  fst (spending_load File read_csv f)
  = first_reading File read_csv f delimiters
  /\ snd (fst (overview_load File read_csv read_lines f))
     = first_reading File read_csv f delimiters
  /\ (first_reading File read_csv f delimiters = None
      <-> forall d, In d delimiters -> read_csv d f = None).
Proof.
  unfold spending_load, overview_load, determine_delimiter. simpl.
  destruct (lines <- read_lines f;; Balance.extract_balance lines);
    destruct (read_csv comma f) as [dc|] eqn:Ec;
    destruct (read_csv semicolon f) as [ds|] eqn:Es;
    destruct (read_csv tab f) as [dt|] eqn:Et; simpl;
    (split; [reflexivity|]); (split; [reflexivity|]);
    (split; [try discriminate|]);
    try (intros H; specialize (H comma (or_introl eq_refl)); congruence);
    try (intros H;
         specialize (H semicolon (or_intror (or_introl eq_refl)));
         congruence);
    try (intros H;
         specialize (H tab (or_intror (or_intror (or_introl eq_refl))));
         congruence);
    try (intros _ d [<-|[<-|[<-|[]]]]; assumption);
    try reflexivity.
Qed.

(** X14.  On the Overview page the file-reading error is shown exactly
    when the decoding or the balance scan raised or the standard read
    failed, the "attempts failed" error exactly when the run ends
    without a table, and the balance text is the one the scan found
    whatever becomes of the table. *)
Theorem overview_loader_messages (f : File) :
  let scan := lines <- read_lines f ;; Balance.extract_balance lines in
  let balance_value := fst (fst (overview_load File read_csv read_lines f)) in
  let df := snd (fst (overview_load File read_csv read_lines f)) in
  let events := snd (overview_load File read_csv read_lines f) in
  (In ErrorReading events
   <-> (exists e, scan = Raise e) \/ read_csv comma f = None)
  /\ (In ErrorAttemptsFailed events <-> df = None)
  /\ balance_value = match scan with
                     | Ok text => text
                     | Raise _ => Balance.not_available
                     end.
Proof.
  cbv zeta. unfold overview_load, determine_delimiter. simpl.
  destruct (lines <- read_lines f;; Balance.extract_balance lines)
    as [text|e];
    destruct (read_csv comma f) as [dc|] eqn:Ec;
    destruct (read_csv semicolon f) as [ds|] eqn:Es;
    destruct (read_csv tab f) as [dt|] eqn:Et; simpl;
    repeat split; intros; try discriminate; try tauto; eauto;
    repeat match goal with
           | H : _ \/ _ |- _ => destruct H
           | H : exists _, _ |- _ => destruct H
           end; try discriminate; try contradiction.
Qed.
End CandidateFacts.

(* ================================================================== *)
(** * More on the balance scan *)

Section ScanFacts.
Import Py Balance Text.
Local Open Scope string_scope.

Lemma split_without_separator (sep : ascii) (s : string) :
  has_char sep s = false -> split sep s = [s].
Proof.
  induction s as [|c s IH]; simpl; [reflexivity|].
  intros H. apply orb_false_iff in H. destruct H as [Hc Hs].
  rewrite Hc, (IH Hs). reflexivity.
Qed.

Lemma split_parts_without_separator (sep : ascii) (s part : string) :
  In part (split sep s) -> has_char sep part = false.
Proof.
  revert part. induction s as [|c s IH]; simpl; intros part.
  - intros [<-|[]]. reflexivity.
  - destruct (Ascii.eqb c sep) eqn:E.
    + intros [<-|H]; [reflexivity|now apply IH].
    + destruct (split sep s) as [|hd tl] eqn:Es.
      * intros [<-|[]]. simpl. now rewrite E.
      * intros [<-|H].
        -- simpl. rewrite E. apply IH. now left.
        -- apply IH. now right.
Qed.

Lemma has_char_substring (c : ascii) (s : string) (n m : nat) :
  has_char c s = false -> has_char c (String.substring n m s) = false.
Proof.
  revert n m. induction s as [|c' s IH]; intros n m H.
  - now destruct n, m.
  - simpl in H. apply orb_false_iff in H. destruct H as [Hc Hs].
    destruct n as [|n]; destruct m as [|m]; simpl; auto.
    rewrite Hc. simpl. now apply IH.
Qed.

Lemma has_char_lstrip (c : ascii) (s : string) :
  has_char c s = false -> has_char c (lstrip s) = false.
Proof.
  induction s as [|c' s IH]; simpl; [auto|].
  intros H. destruct (isspace c'); [|exact H].
  apply orb_false_iff in H. now apply IH.
Qed.

Lemma has_char_rstrip (c : ascii) (s : string) :
  has_char c s = false -> has_char c (rstrip s) = false.
Proof.
  induction s as [|c' s IH]; simpl; [auto|].
  intros H. apply orb_false_iff in H. destruct H as [Hc Hs].
  specialize (IH Hs). destruct (rstrip s) as [|c2 r].
  - destruct (isspace c'); simpl; [reflexivity|]. now rewrite Hc.
  - simpl. rewrite Hc. exact IH.
Qed.

Lemma lstrip_starts (s : string) : starts_with_space (lstrip s) = false.
Proof.
  induction s as [|c s IH]; simpl; [reflexivity|].
  destruct (isspace c) eqn:E; [exact IH|]. simpl. exact E.
Qed.

Lemma rstrip_starts (s : string) :
  starts_with_space s = false -> starts_with_space (rstrip s) = false.
Proof.
  destruct s as [|c s]; simpl; [auto|]. intros H.
  destruct (rstrip s); [|exact H]. rewrite H. exact H.
Qed.

Lemma rstrip_ends (s : string) : ends_with_space (rstrip s) = false.
Proof.
  induction s as [|c s IH]; simpl; [reflexivity|].
  destruct (rstrip s) as [|c2 r] eqn:E.
  - destruct (isspace c) eqn:Ec; simpl; [reflexivity|exact Ec].
  - exact IH.
Qed.

Lemma strip_is_stripped (s : string) :
  starts_with_space (strip s) = false /\ ends_with_space (strip s) = false.
Proof.
  unfold strip. split; [apply rstrip_starts, lstrip_starts|apply rstrip_ends].
Qed.

Lemma balance_of_line_stripped (line text : string) :
  balance_of_line line = Ok text ->
  starts_with_space text = false
  /\ ends_with_space text = false
  /\ has_char ":" text = false.
Proof.
  unfold balance_of_line, getitem.
  destruct (nth_error (split ":" (slice_to line (find " as of" line))) 1)
    as [seg|] eqn:E; simpl; [|discriminate].
  intros [= <-]. apply nth_error_In in E.
  apply split_parts_without_separator in E.
  destruct (strip_is_stripped seg) as [H1 H2].
  split; [exact H1|]. split; [exact H2|].
  unfold strip. now apply has_char_rstrip, has_char_lstrip.
Qed.

(** X16.  Whatever the file holds, a balance text the scan hands on has
    no white space at either end and contains no colon. *)
Theorem extracted_balance_is_stripped (lines : list string) (text : string) :
  extract_balance lines = Ok text ->
  starts_with_space text = false
  /\ ends_with_space text = false
  /\ has_char ":" text = false.
Proof.
  unfold extract_balance. induction lines as [|line lines IH]; simpl.
  - intros [= <-]. repeat split.
  - destruct (contains "Avail Bal" line); [|exact IH].
    apply balance_of_line_stripped.
Qed.

Lemma extracted_balance_is_stripped_witness :
  extract_balance ["Avail Bal:   $1,234.56   as of 12:30"]
  = Ok "$1,234.56"
  /\ ends_with_space "$1,234.56" = false.
Proof.
  assert (H : extract_balance ["Avail Bal:   $1,234.56   as of 12:30"]
              = Ok "$1,234.56") by reflexivity.
  split; [exact H|].
  exact (proj1 (proj2 (extracted_balance_is_stripped _ _ H))).
Defined.

Lemma colon_free_line_raises (line : string) :
  has_char ":" line = false -> balance_of_line line = Raise IndexError.
Proof.
  intros H. unfold balance_of_line, slice_to.
  rewrite split_without_separator by now apply has_char_substring.
  reflexivity.
Qed.

(** X17.  The first line that mentions "Avail Bal" decides alone: the
    lines after it change nothing, and when it has no colon the scan
    raises [IndexError] even if a later line carries a well-formed
    balance.  A file without such a line leaves the balance at "N/A". *)
Theorem first_balance_line_decides (before after : list string)
        (line : string) :
  (forall l, In l before -> contains "Avail Bal" l = false) ->
  (contains "Avail Bal" line = true ->
   extract_balance (before ++ line :: after) = extract_balance [line]
   /\ (has_char ":" line = false ->
       extract_balance (before ++ line :: after) = Raise IndexError))
  /\ extract_balance before = Ok not_available.
Proof.
  intros Hbefore. split.
  - intros Hline. unfold extract_balance.
    rewrite (scan_lines_first_balance_line before after line _
               Hbefore Hline).
    split.
    + simpl. now rewrite Hline.
    + apply colon_free_line_raises.
  - unfold extract_balance. now apply scan_lines_without_balance.
Qed.

Lemma first_balance_line_decides_witness :
  (forall l, In l ["Statement"] -> contains "Avail Bal" l = false)
  /\ contains "Avail Bal" "Avail Bal 12 as of today" = true
  /\ has_char ":" "Avail Bal 12 as of today" = false
  /\ extract_balance
       (["Statement"] ++ "Avail Bal 12 as of today"
          :: ["Avail Bal: $7 as of today"])
     = Raise IndexError.
Proof.
  assert (H1 : forall l, In l ["Statement"] ->
                         contains "Avail Bal" l = false).
  { intros l [<-|[]]. reflexivity. }
  assert (H2 : contains "Avail Bal" "Avail Bal 12 as of today" = true)
    by reflexivity.
  assert (H3 : has_char ":" "Avail Bal 12 as of today" = false)
    by reflexivity.
  split; [exact H1|]. split; [exact H2|]. split; [exact H3|].
  exact (proj2 (proj1 (first_balance_line_decides
                         ["Statement"] ["Avail Bal: $7 as of today"]
                         "Avail Bal 12 as of today" H1) H2) H3).
Defined.
End ScanFacts.

(* ================================================================== *)
(** * A well-formed balance line *)

Section BalanceLineFacts.
Import Py Balance Text.
Local Open Scope string_scope.

Lemma string_app_assoc (a b c : string) : (a ++ b) ++ c = a ++ (b ++ c).
Proof. induction a as [|x a IH]; simpl; [reflexivity|]. now rewrite IH. Qed.

Lemma string_length_app (a b : string) :
  String.length (a ++ b) = (String.length a + String.length b)%nat.
Proof. induction a as [|x a IH]; simpl; [reflexivity|]. now rewrite IH. Qed.

Lemma prefix_empty (s : string) : String.prefix "" s = true.
Proof. now destruct s. Qed.

Lemma prefix_self_app (m rest : string) : String.prefix m (m ++ rest) = true.
Proof.
  induction m as [|c m IH]; simpl; [apply prefix_empty|].
  destruct (ascii_dec c c); [exact IH|contradiction].
Qed.

Lemma prefix_within (m x y : string) :
  (String.length m <= String.length x)%nat ->
  String.prefix m (x ++ y) = String.prefix m x.
Proof.
  revert m. induction x as [|b x IH]; intros m Hlen.
  - destruct m; [|simpl in Hlen; lia]. simpl. now rewrite prefix_empty.
  - destruct m as [|a m]; [reflexivity|]. simpl.
    destruct (ascii_dec a b); [|reflexivity].
    apply IH. simpl in Hlen. lia.
Qed.

Lemma find_from_found (sub s : string) (i : Z) :
  String.prefix sub s = true -> find_from sub s i = i.
Proof. intros H. destruct s; cbn [find_from]; now rewrite H. Qed.

(** The marker [m5 ++ last] is found right after [pre] when it does not
    begin anywhere inside [pre]. *)
Lemma find_from_first (m5 : string) (last : ascii) (pre rest : string)
      (i : Z) :
  contains (m5 ++ String last "") (pre ++ m5) = false ->
  find_from (m5 ++ String last "") (pre ++ (m5 ++ String last "") ++ rest) i
  = (i + len pre)%Z.
Proof.
  revert i. induction pre as [|c pre IH]; intros i H.
  - change ("" ++ (m5 ++ String last "") ++ rest)
      with ((m5 ++ String last "") ++ rest).
    rewrite find_from_found by apply prefix_self_app.
    unfold len. simpl. lia.
  - change (String c pre ++ m5) with (String c (pre ++ m5)) in H.
    cbn [contains] in H. apply orb_false_iff in H. destruct H as [Hp Hc].
    change (String c pre ++ (m5 ++ String last "") ++ rest)
      with (String c (pre ++ (m5 ++ String last "") ++ rest)).
    cbn [find_from].
    assert (Hnot : String.prefix (m5 ++ String last "")
                     (String c (pre ++ (m5 ++ String last "") ++ rest))
                   = false).
    { rewrite <- Hp.
      replace (String c (pre ++ (m5 ++ String last "") ++ rest))
        with (String c (pre ++ m5) ++ String last rest).
      - apply prefix_within. simpl. rewrite !string_length_app. simpl. lia.
      - simpl. f_equal. rewrite !string_app_assoc. reflexivity. }
    rewrite Hnot, (IH (i + 1)%Z Hc). unfold len. simpl String.length. lia.
Qed.

Lemma substring_prefix (a b : string) :
  String.substring 0 (String.length a) (a ++ b) = a.
Proof.
  induction a as [|c a IH]; simpl.
  - now destruct b.
  - now rewrite IH.
Qed.

Lemma split_two (sep : ascii) (a b : string) :
  has_char sep a = false -> has_char sep b = false ->
  split sep (a ++ String sep b) = [a; b].
Proof.
  intros Ha Hb. induction a as [|c a IH]; simpl.
  - rewrite Ascii.eqb_refl. now rewrite split_without_separator.
  - simpl in Ha. apply orb_false_iff in Ha. destruct Ha as [Hc Ha].
    rewrite Hc, (IH Ha). reflexivity.
Qed.

(** X18.  On a line made of a head without colon, a colon, the balance
    text (without colon), then " as of" and anything after it, where
    " as of" does not start earlier, the scan yields the balance text
    with the white space around it removed. *)
Theorem balance_of_well_formed_line (head body rest : string) :
  has_char ":" head = false ->
  has_char ":" body = false ->
  contains " as of" (head ++ ":" ++ body ++ " as o") = false ->
  balance_of_line (head ++ ":" ++ body ++ " as of" ++ rest)
  = Ok (strip body).
Proof.
  intros Hhead Hbody Hmarker.
  set (pre := head ++ ":" ++ body).
  assert (Eline : head ++ ":" ++ body ++ " as of" ++ rest
                  = pre ++ (" as o" ++ "f") ++ rest).
  { unfold pre. rewrite !string_app_assoc. reflexivity. }
  assert (Hfind : find " as of" (head ++ ":" ++ body ++ " as of" ++ rest)
                  = len pre).
  { rewrite Eline. unfold find.
    transitivity (0 + len pre)%Z; [|lia].
    apply (find_from_first " as o" "f" pre rest 0).
    unfold pre. rewrite !string_app_assoc. exact Hmarker. }
  unfold balance_of_line. rewrite Hfind. unfold slice_to.
  destruct (len pre <? 0)%Z eqn:E;
    [apply Z.ltb_lt in E; unfold len in E; lia|].
  rewrite Eline at 2.
  replace (Z.to_nat (Z.min (len pre) (len (head ++ ":" ++ body
                                               ++ " as of" ++ rest))))
    with (String.length pre).
  2:{ rewrite Eline. unfold len. rewrite string_length_app. lia. }
  rewrite substring_prefix. unfold pre.
  change (head ++ ":" ++ body) with (head ++ String ":" body).
  rewrite (split_two ":" head body Hhead Hbody). reflexivity.
Qed.

Lemma balance_of_well_formed_line_witness :
  has_char ":" "Avail Bal" = false
  /\ has_char ":" " $1,234.56" = false
  /\ contains " as of" ("Avail Bal" ++ ":" ++ " $1,234.56" ++ " as o")
     = false
  /\ balance_of_line
       ("Avail Bal" ++ ":" ++ " $1,234.56" ++ " as of" ++ " 2024-01-01")
     = Ok (strip " $1,234.56").
Proof.
  assert (H1 : has_char ":" "Avail Bal" = false) by reflexivity.
  assert (H2 : has_char ":" " $1,234.56" = false) by reflexivity.
  assert (H3 : contains " as of"
                        ("Avail Bal" ++ ":" ++ " $1,234.56" ++ " as o")
               = false) by reflexivity.
  split; [exact H1|]. split; [exact H2|]. split; [exact H3|].
  exact (balance_of_well_formed_line "Avail Bal" " $1,234.56"
                                     " 2024-01-01" H1 H2 H3).
Defined.
End BalanceLineFacts.

(* ================================================================== *)
(** * The balance text before its conversion *)

Section ProgressFacts.
Import Py Text.

Lemma has_char_remove_other (c d : ascii) (s : string) :
  has_char c s = false -> has_char c (remove d s) = false.
Proof.
  induction s as [|x s IH]; simpl; [auto|].
  intros H. apply orb_false_iff in H. destruct H as [Hx Hs].
  destruct (Ascii.eqb x d); simpl; [auto|]. rewrite Hx. auto.
Qed.

Lemma has_char_remove (c : ascii) (s : string) :
  has_char c (remove c s) = false.
Proof.
  induction s as [|x s IH]; simpl; [reflexivity|].
  destruct (Ascii.eqb x c) eqn:E; simpl; [exact IH|]. now rewrite E.
Qed.

Lemma remove_absent (c : ascii) (s : string) :
  has_char c s = false -> remove c s = s.
Proof.
  induction s as [|x s IH]; simpl; [reflexivity|].
  intros H. apply orb_false_iff in H. destruct H as [Hx Hs].
  rewrite Hx. now rewrite IH.
Qed.

(** X21.  The text handed to [float] holds neither a dollar sign nor a
    comma, and a balance text that holds neither is handed over as it
    is. *)
Theorem cleaned_balance_has_no_marks (balance_value : string) :
  let cleaned := remove ","%char (remove "$"%char balance_value) in
  has_char "$"%char cleaned = false
  /\ has_char ","%char cleaned = false
  /\ (has_char "$"%char balance_value = false ->
      has_char ","%char balance_value = false ->
      cleaned = balance_value).
Proof.
  cbv zeta. split; [|split].
  - apply has_char_remove_other, has_char_remove.
  - apply has_char_remove.
  - intros H1 H2. now rewrite (remove_absent "$" _ H1), remove_absent.
Qed.

Lemma cleaned_balance_has_no_marks_witness :
  has_char "$"%char "500.25" = false
  /\ has_char ","%char "500.25" = false
  /\ remove ","%char (remove "$"%char "500.25") = "500.25"%string.
Proof.
  assert (H1 : has_char "$"%char "500.25" = false) by reflexivity.
  assert (H2 : has_char ","%char "500.25" = false) by reflexivity.
  split; [exact H1|]. split; [exact H2|].
  exact (proj2 (proj2 (cleaned_balance_has_no_marks "500.25")) H1 H2).
Defined.
End ProgressFacts.

(* ================================================================== *)
(** * The session across visits of the Getting-Started page *)

Section SessionFacts.
Import Description.
Variable File : Type.

(** Once both keys are set, they stay in step over any further visits. *)
Lemma visits_keep_keys_in_step (uploads : list (option File))
      (s : Session File) (u : option File) :
  uploaded_file File s = Some u ->
  file_uploaded File s = Some (present File u) ->
  uploaded_file File (visits File uploads s)
  = Some (fold_left (keep_latest File) uploads u)
  /\ file_uploaded File (visits File uploads s)
     = Some (present File (fold_left (keep_latest File) uploads u)).
Proof.
  revert s u. induction uploads as [|upload uploads IH]; intros s u Hu Hf.
  - simpl. now split.
  - unfold visits. simpl. fold (visits File uploads).
    apply IH; destruct upload as [f|]; simpl; try reflexivity.
    + now rewrite Hu.
    + now rewrite Hf.
Qed.

(** X23.  After any series of visits to the Getting-Started page that
    starts with a fresh session, the file the other pages go on with is
    the one of the last visit that uploaded a file, and they stop when
    no visit did; the flag [file_uploaded] is set exactly in the first
    case; a further visit without upload leaves the session as it is
    and says "still available" exactly when there is a file. *)
Theorem session_keeps_latest_upload (uploads : list (option File)) :
  uploads <> [] ->
  let s := visits File uploads (new_session File) in
  page_guard File s = latest File uploads
  /\ file_uploaded File s = Some (present File (latest File uploads))
  /\ fst (description_run File None s) = s
  /\ (snd (description_run File None s) = StillAvailable
      <-> exists f, page_guard File s = Some f).
Proof.
  destruct uploads as [|first rest]; [congruence|]. intros _. cbv zeta.
  assert (Hfirst : uploaded_file File
                     (fst (description_run File first (new_session File)))
                   = Some first
                   /\ file_uploaded File
                        (fst (description_run File first
                                              (new_session File)))
                      = Some (present File first)).
  { destruct first; split; reflexivity. }
  destruct Hfirst as [Hu Hf].
  destruct (visits_keep_keys_in_step rest _ first Hu Hf) as [Hu' Hf'].
  assert (Hlatest : latest File (first :: rest)
                    = fold_left (keep_latest File) rest first).
  { unfold latest. simpl. now destruct first. }
  change (visits File (first :: rest) (new_session File))
    with (visits File rest
                 (fst (description_run File first (new_session File)))).
  set (s := visits File rest _) in *.
  rewrite Hlatest. unfold page_guard, description_run, initialise.
  rewrite Hu', Hf'. simpl.
  destruct (fold_left (keep_latest File) rest first) as [f|]; simpl.
  - split; [reflexivity|]. split; [reflexivity|]. split.
    + destruct s as [u b]. simpl in *. now rewrite Hu', Hf'.
    + split; [intros _; now exists f|reflexivity].
  - split; [reflexivity|]. split; [reflexivity|]. split.
    + destruct s as [u b]. simpl in *. now rewrite Hu', Hf'.
    + split; [discriminate|]. intros [f H]. discriminate H.
Qed.
End SessionFacts.

Lemma session_keeps_latest_upload_witness :
  [Some 1%nat; None; Some 2%nat; None] <> []
  /\ Description.page_guard nat
       (Description.visits nat [Some 1%nat; None; Some 2%nat; None]
                           (Description.new_session nat))
     = Some 2%nat.
Proof.
  assert (H : [Some 1%nat; None; Some 2%nat; None] <> []) by discriminate.
  split; [exact H|].
  exact (proj1 (session_keeps_latest_upload
                  nat [Some 1%nat; None; Some 2%nat; None] H)).
Defined.

